(** * Covered-call backtest ([main.py]): model and verified properties

    The script is embedded step by step, in the order of its own section
    banners: the Black-Scholes pricer (Step 1), the volatility columns of
    [data_df] (Step 3), the option selling dates (Step 4), the day loop
    (Step 5) and the performance metrics (Step 8).

    Numbers.  Prices, cash and volatilities are numpy/Python floats in the
    script; they are idealised here as real numbers ([R]), with [np.log],
    [np.exp], [np.sqrt] read as [ln], [exp], [sqrt] and [norm.cdf] as the
    standard normal distribution function.  A cell of a pandas column that
    holds no finite number (NaN, or an infinity that turns every rolling
    window over it into NaN) is [None].  The share count is a Python [int]
    ([Z]).  A division of numpy floats by zero raises nothing and gives an
    infinity; the pricer keeps that case apart ([np_true_divide]).

    Dates.  The index of [data_df] holds one midnight [Timestamp] per
    trading day; a timestamp is the number of days since 1970-01-01.

    Exceptions.  A Python computation either returns or raises; the few
    operations of the script that can raise ([list.remove], indexing,
    true division of Python floats) are written in the [outcome] monad. *)

From Stdlib Require Import Reals Lra Lia ZArith List Bool Ranalysis RiemannInt.
From Stdlib Require Import Sorting.Sorted.
Import ListNotations.

Set Implicit Arguments.

(** ** Python outcomes *)

Inductive exn : Set :=
| ValueError
| ZeroDivisionError
| IndexError.

Inductive outcome (A : Type) : Type :=
| Returned (a : A)
| Raised (e : exn).

Arguments Returned {A} a.
Arguments Raised {A} e.

Definition bind {A B : Type} (c : outcome A) (k : A -> outcome B) : outcome B :=
  match c with
  | Returned a => k a
  | Raised e => Raised e
  end.

Notation "x <- c ;; k" := (bind c (fun x => k))
  (at level 61, c at next level, right associativity).

(** ** Timestamps and the proleptic Gregorian calendar *)

Module Calendar.

Local Open Scope Z_scope.

(** Days since 1970-01-01. *)
Definition Timestamp : Set := Z.

Definition days_from_civil (y m d : Z) : Timestamp :=
  let y' := if m <=? 2 then y - 1 else y in
  let era := y' / 400 in
  let yoe := y' - era * 400 in
  let mp := if 2 <? m then m - 3 else m + 9 in
  let doy := (153 * mp + 2) / 5 + d - 1 in
  let doe := yoe * 365 + yoe / 4 - yoe / 100 + doy in
  era * 146097 + doe - 719468.

Definition civil_from_days (t : Timestamp) : Z * Z * Z :=
  let z := t + 719468 in
  let era := z / 146097 in
  let doe := z - era * 146097 in
  let yoe := (doe - doe / 1460 + doe / 36524 - doe / 146096) / 365 in
  let doy := doe - (365 * yoe + yoe / 4 - yoe / 100) in
  let mp := (5 * doy + 2) / 153 in
  let d := doy - (153 * mp + 2) / 5 + 1 in
  let m := if mp <? 10 then mp + 3 else mp - 9 in
  let y := yoe + era * 400 in
  ((if m <=? 2 then y + 1 else y), m, d).

Definition year (t : Timestamp) : Z := fst (fst (civil_from_days t)).
Definition month (t : Timestamp) : Z := snd (fst (civil_from_days t)).
Definition day (t : Timestamp) : Z := snd (civil_from_days t).

(** Months counted from year 0: the bins of a monthly resampling. *)
Definition month_number (t : Timestamp) : Z := year t * 12 + (month t - 1).

(** Label of a monthly bin under the ['MS'] (month start) frequency. *)
Definition month_start (k : Z) : Timestamp :=
  days_from_civil (k / 12) (k mod 12 + 1) 1.

(** [t + pd.Timedelta(days=n)] *)
Definition add_days (t : Timestamp) (n : Z) : Timestamp := t + n.

End Calendar.

Import Calendar.

(** ** Step 1: the Black-Scholes function *)

Open Scope R_scope.

(** Density of the standard normal law. *)
Definition std_normal_pdf (t : R) : R := exp (- (t * t / 2)) / sqrt (2 * PI).

Definition std_normal_pdf_integrable (a b : R) : Riemann_integrable std_normal_pdf a b.
Proof.
  assert (Hc : continuity std_normal_pdf) by (unfold std_normal_pdf; reg).
  destruct (Rle_dec a b) as [Hab | Hba].
  - exact (continuity_implies_RiemannInt Hab (fun x _ => Hc x)).
  - apply RiemannInt_P1.
    exact (continuity_implies_RiemannInt (Rlt_le _ _ (Rnot_le_lt _ _ Hba))
             (fun x _ => Hc x)).
Defined.

(** [scipy.stats.norm.cdf]: half of the mass lies below 0, the rest is the
    integral of the density from 0 to [x]. *)
Definition norm_cdf (x : R) : R :=
  1 / 2 + RiemannInt (std_normal_pdf_integrable 0 x).

(** A numpy float that is a number or an infinity. *)
Inductive npfloat : Type :=
| Fin (x : R)
| PosInf
| NegInf.

(** [n / d] on numpy floats.  A zero divisor raises nothing: the quotient
    is the infinity of the sign of [n] (the zero is the [+0.0] a standard
    deviation gives).  [0 / 0] is NaN in numpy, which no value of this
    model stands for; the quotient over the reals is kept there, and the
    call site of the loop never meets it at a positive price. *)
Definition np_true_divide (n d : R) : npfloat :=
  if Req_dec_T d 0 then
    if Rlt_dec 0 n then PosInf
    else if Rlt_dec n 0 then NegInf
    else Fin (n / d)
  else Fin (n / d).

(** [x - y] for a finite [y]: an infinity stays what it is. *)
Definition np_subtract (x : npfloat) (y : R) : npfloat :=
  match x with
  | Fin a => Fin (a - y)
  | PosInf => PosInf
  | NegInf => NegInf
  end.

(** [norm.cdf] at a numpy float: 1 at [+inf], 0 at [-inf]. *)
Definition norm_cdf_at (x : npfloat) : R :=
  match x with
  | Fin a => norm_cdf a
  | PosInf => 1
  | NegInf => 0
  end.

(** Lines 28 to 30.  The result is the number numpy computes wherever it
    computes one from real inputs with [S / K] positive and [T] not
    negative, a zero [sigma * sqrt T] included (apart from [0 / 0]). *)
Definition black_scholes_call (S K T r sigma : R) : R :=
  let d1 :=
    np_true_divide (ln (S / K) + (r + 0.5 * sigma ^ 2) * T) (sigma * sqrt T) in
  let d2 := np_subtract d1 (sigma * sqrt T) in
  let call_price := S * norm_cdf_at d1 - K * exp (- r * T) * norm_cdf_at d2 in
  call_price.

(** ** Step 3: the columns of [data_df] *)

Definition window_size : nat := 30.

(** One row of [data_df] before [dropna]. *)
Record RawRow : Type := mkRawRow {
  raw_Date : Timestamp;
  raw_Price : R;
  raw_Returns : option R;
  raw_Volatility : option R
}.

(** One row of [data_df] after [dropna]: every cell is a number. *)
Record Row : Type := mkRow {
  Date : Timestamp;
  Price : R;
  Returns : R;
  Volatility : R
}.

(** [np.log(p / q)] for one cell; [q] is the shifted price, missing in the
    first row. *)
Definition log_return (q : option R) (p : R) : option R :=
  match q with
  | None => None
  | Some q => if Rlt_dec 0 (p / q) then Some (ln (p / q)) else None
  end.

(** [np.log(Price / Price.shift(1))] *)
Fixpoint returns_column (prev : option R) (prices : list R) : list (option R) :=
  match prices with
  | [] => []
  | p :: rest => log_return prev p :: returns_column (Some p) rest
  end.

(** The observations of a window: pandas skips the missing cells. *)
Fixpoint observations (w : list (option R)) : list R :=
  match w with
  | [] => []
  | Some x :: w' => x :: observations w'
  | None :: w' => observations w'
  end.

Definition sum (xs : list R) : R := fold_right Rplus 0 xs.

Definition mean (xs : list R) : R := sum xs / INR (length xs).

(** Sample standard deviation ([ddof=1]); undefined below two samples. *)
Definition sample_std (xs : list R) : option R :=
  if (length xs <=? 1)%nat then None
  else
    let m := mean xs in
    Some (sqrt (sum (map (fun x => (x - m) ^ 2) xs) / INR (length xs - 1))).

(** The trailing window that ends at row [i]. *)
Definition window_at (w i : nat) (col : list (option R)) : list (option R) :=
  skipn (i + 1 - w) (firstn (i + 1) col).

(** [col.rolling(window=w).std()] at row [i]; [min_periods] defaults to the
    window size. *)
Definition rolling_std_at (w i : nat) (col : list (option R)) : option R :=
  let obs := observations (window_at w i col) in
  if (length obs <? w)%nat then None else sample_std obs.

Definition rolling_std (w : nat) (col : list (option R)) : list (option R) :=
  map (fun i => rolling_std_at w i col) (seq 0 (length col)).

(** [... * np.sqrt(252)] *)
Definition annualize (v : option R) : option R :=
  option_map (fun s => s * sqrt 252) v.

Fixpoint zip_rows (ds : list Timestamp) (ps : list R) (rs vs : list (option R))
  : list RawRow :=
  match ds, ps, rs, vs with
  | d :: ds', p :: ps', r :: rs', v :: vs' =>
      mkRawRow d p r v :: zip_rows ds' ps' rs' vs'
  | _, _, _, _ => []
  end.

(** The frame built from the downloaded closing prices. *)
Definition build_frame (data : list (Timestamp * R)) : list RawRow :=
  let ds := map fst data in
  let ps := map snd data in
  let rs := returns_column None ps in
  let vs := map annualize (rolling_std window_size rs) in
  zip_rows ds ps rs vs.

(** [data_df.dropna(inplace=True)] *)
Fixpoint dropna (rows : list RawRow) : list Row :=
  match rows with
  | [] => []
  | row :: rest =>
      match raw_Returns row, raw_Volatility row with
      | Some r, Some v => mkRow (raw_Date row) (raw_Price row) r v :: dropna rest
      | _, _ => dropna rest
      end
  end.

Definition data_df (data : list (Timestamp * R)) : list Row :=
  dropna (build_frame data).

(** ** Step 4: option selling dates *)

Definition Zrange (a : Z) (n : nat) : list Z :=
  map (fun i => (a + Z.of_nat i)%Z) (seq 0 n).

(** [frame.resample('MS').first().index]: one label per monthly bin, from
    the bin of the earliest row to the bin of the latest one; a bin is
    labelled by the first calendar day of its month. *)
Definition resample_MS_index (index : list Timestamp) : list Timestamp :=
  match index with
  | [] => []
  | t :: rest =>
      let lo := month_number (fold_right Z.min t rest) in
      let hi := month_number (fold_right Z.max t rest) in
      map month_start (Zrange lo (Z.to_nat (hi - lo + 1)))
  end.

Definition monthly_dates (df : list Row) : list Timestamp :=
  resample_MS_index (map Date df).

(** [t in index] *)
Definition contains (index : list Timestamp) (t : Timestamp) : bool :=
  existsb (Z.eqb t) index.

(** ** Step 5: the covered call simulation *)

Definition risk_free_rate : R := 0.01.
Definition shares_per_contract : Z := 100.

(** An entry of [positions]: the dict with keys ['expiration_date'] and ['K']. *)
Record Position : Type := mkPosition {
  expiration_date : Timestamp;
  K : R
}.

(** The variables the loop updates. *)
Record Book : Type := mkBook {
  cash : R;
  shares : Z;
  portfolio_value : list R;
  dates : list Timestamp;
  positions : list Position
}.

Definition initial : Book := mkBook 0 0 [] [] [].

(** Equality of two position dicts. *)
Definition Position_eq_dec (p q : Position) : {p = q} + {p <> q}.
Proof. decide equality; [apply Req_dec_T | apply Z.eq_dec]. Defined.

(** [l.remove(x)]: drops the first item equal to [x]. *)
Fixpoint list_remove (x : Position) (l : list Position) : outcome (list Position) :=
  match l with
  | [] => Raised ValueError
  | y :: l' =>
      if Position_eq_dec y x then Returned l'
      else l'' <- list_remove x l' ;; Returned (y :: l'')
  end.

(** "Update portfolio value" *)
Definition update_portfolio_value (current_date : Timestamp) (S : R) (b : Book) : Book :=
  let portfolio_val := cash b + IZR (shares b) * S in
  mkBook (cash b) (shares b)
         (portfolio_value b ++ [portfolio_val])
         (dates b ++ [current_date])
         (positions b).

(** "Check for option expiration": the loop over [positions]. *)
Fixpoint check_expiration (current_date : Timestamp) (S : R) (ps : list Position)
    (cash : R) (shares : Z) (positions_to_remove : list Position)
  : R * Z * list Position :=
  match ps with
  | [] => (cash, shares, positions_to_remove)
  | pos :: rest =>
      if (current_date >=? expiration_date pos)%Z then
        let K := K pos in
        if Rgt_dec S K then
          check_expiration current_date S rest
            (cash + IZR shares * K) 0%Z (positions_to_remove ++ [pos])
        else
          check_expiration current_date S rest
            cash shares (positions_to_remove ++ [pos])
      else
        check_expiration current_date S rest cash shares positions_to_remove
  end.

(** "Remove expired positions" *)
Fixpoint remove_positions (positions_to_remove ps : list Position)
  : outcome (list Position) :=
  match positions_to_remove with
  | [] => Returned ps
  | pos :: rest => ps' <- list_remove pos ps ;; remove_positions rest ps'
  end.

Definition option_expiration (current_date : Timestamp) (S : R) (b : Book)
  : outcome Book :=
  let '(cash', shares', positions_to_remove) :=
    check_expiration current_date S (positions b) (cash b) (shares b) [] in
  ps <- remove_positions positions_to_remove (positions b) ;;
  Returned (mkBook cash' shares' (portfolio_value b) (dates b) ps).

(** "On monthly dates, sell a new call option" *)
Definition sell_call (monthly : list Timestamp) (current_date : Timestamp)
    (S sigma : R) (b : Book) : Book :=
  if contains monthly current_date then
    let shares' := if (shares b =? 0)%Z then shares_per_contract else shares b in
    let cash' := if (shares b =? 0)%Z then cash b - IZR shares' * S else cash b in
    let T := 30 / 252 in
    let K := S * 1.05 in
    let call_premium :=
      black_scholes_call S K T risk_free_rate sigma * IZR shares_per_contract in
    mkBook (cash' + call_premium) shares'
           (portfolio_value b) (dates b)
           (positions b ++ [mkPosition (add_days current_date 30) K])
  else b.

(** The body of [for current_date in data_df.index]. *)
Definition simulate_day (monthly : list Timestamp) (b : Book) (row : Row)
  : outcome Book :=
  let current_date := Date row in
  let S := Price row in
  let sigma := Volatility row in
  let b1 := update_portfolio_value current_date S b in
  b2 <- option_expiration current_date S b1 ;;
  Returned (sell_call monthly current_date S sigma b2).

Fixpoint simulate (monthly : list Timestamp) (rows : list Row) (b : Book)
  : outcome Book :=
  match rows with
  | [] => Returned b
  | row :: rest => b' <- simulate_day monthly b row ;; simulate monthly rest b'
  end.

Definition run_simulation (df : list Row) : outcome Book :=
  simulate (monthly_dates df) df initial.

(** ** Steps 6 and 8: results and performance metrics *)

(** [xs[0]] and [xs[-1]] *)
Definition first_item {A : Type} (xs : list A) : outcome A :=
  match xs with
  | [] => Raised IndexError
  | x :: _ => Returned x
  end.

Definition last_item {A : Type} (xs : list A) : outcome A :=
  first_item (rev xs).

(** True division of numpy floats: never raises; a zero divisor gives an
    infinity or NaN. *)
Definition np_divide (a b : R) : option R :=
  if Req_dec_T b 0 then None else Some (a / b).

(** True division of Python numbers: a zero divisor raises. *)
Definition py_truediv (a b : R) : outcome R :=
  if Req_dec_T b 0 then Raised ZeroDivisionError else Returned (a / b).

(** [x ** e] on floats. *)
Definition np_power (x e : R) : option R :=
  if Rlt_dec 0 x then Some (Rpower x e)
  else if Req_dec_T e 0 then Some 1
  else if Req_dec_T x 0 then (if Rlt_dec 0 e then Some 0 else None)
  else if Req_dec_T (frac_part e) 0 then Some (powerRZ x (Int_part e))
  else None.

(** [(series[-1] - series[0]) / series[0]] *)
Definition total_return (series : list R) : outcome (option R) :=
  last <- last_item series ;;
  first <- first_item series ;;
  Returned (np_divide (last - first) first).

(** [(1 + total) ** (1 / years) - 1] *)
Definition annualized_return (total : option R) (years : R) : outcome (option R) :=
  e <- py_truediv 1 years ;;
  Returned
    match total with
    | Some t => option_map (fun p => p - 1) (np_power (1 + t) e)
    | None => None
    end.

Record Metrics : Type := mkMetrics {
  covered_call_return : option R;
  buy_and_hold_return : option R;
  annualized_covered_call_return : option R;
  annualized_buy_and_hold_return : option R
}.

Definition performance_metrics (df : list Row) (b : Book) : outcome Metrics :=
  p0 <- first_item (map Price df) ;;
  let initial_investment := IZR shares_per_contract * p0 in
  let buy_and_hold_value := map (fun row => IZR shares_per_contract * Price row) df in
  ccr <- total_return (portfolio_value b) ;;
  bhr <- total_return buy_and_hold_value ;;
  d_last <- last_item (dates b) ;;
  d_first <- first_item (dates b) ;;
  let days := (d_last - d_first)%Z in
  let years := IZR days / 365.25 in
  acc <- annualized_return ccr years ;;
  abh <- annualized_return bhr years ;;
  Returned (mkMetrics ccr bhr acc abh).

(** The whole script, from the downloaded prices to the metrics. *)
Definition main (data : list (Timestamp * R)) : outcome Metrics :=
  let df := data_df data in
  b <- run_simulation df ;;
  performance_metrics df b.

(** ** Specification-side definitions

    The operations of the PositionBook as the specification words them,
    and the vocabulary of the properties below. *)

(** An obligation is due when its expiration date has been reached. *)
Definition due (currentDate : Timestamp) (o : Position) : bool :=
  (expiration_date o <=? currentDate)%Z.

Definition still_open (currentDate : Timestamp) (o : Position) : bool :=
  negb (due currentDate o).

(** Exercise when the price is above the strike, lapse otherwise. *)
Definition exercise_or_lapse (currentPrice : R) (cs : R * Z) (o : Position) : R * Z :=
  if Rgt_dec currentPrice (K o) then (fst cs + IZR (snd cs) * K o, 0%Z) else cs.

Definition resolveExpirations (currentDate : Timestamp) (currentPrice : R) (b : Book)
  : Book :=
  let cs :=
    fold_left (exercise_or_lapse currentPrice)
      (filter (due currentDate) (positions b)) (cash b, shares b) in
  mkBook (fst cs) (snd cs) (portfolio_value b) (dates b)
         (filter (still_open currentDate) (positions b)).

(** One day as the specification orders it: mark, resolve, roll. *)
Definition day_result (monthly : list Timestamp) (b : Book) (row : Row) : Book :=
  sell_call monthly (Date row) (Price row) (Volatility row)
    (resolveExpirations (Date row) (Price row)
       (update_portfolio_value (Date row) (Price row) b)).

(** The state of the loop after its first [n] days. *)
Definition after_days (monthly : list Timestamp) (rows : list Row) (n : nat)
  : outcome Book :=
  simulate monthly (firstn n rows) initial.

(** The dates of a sequence on which the loop writes a call. *)
Definition roll_dates (monthly index : list Timestamp) : list Timestamp :=
  filter (contains monthly) index.

(** The share count is flat or covers exactly one contract. *)
Definition shares_ok (b : Book) : Prop :=
  shares b = 0%Z \/ shares b = shares_per_contract.

(** The roll dates of [index] are spaced by at least [n] days. *)
Definition rolls_spaced (n : Z) (monthly index : list Timestamp) : Prop :=
  forall r1 r2,
    In r1 index -> In r2 index ->
    contains monthly r1 = true -> contains monthly r2 = true ->
    (r1 < r2)%Z -> (r1 + n <= r2)%Z.

(** The open position [o] was written on a roll date of [index] that lies
    before every date of [later]. *)
Definition written_on_roll (monthly index later : list Timestamp) (o : Position)
  : Prop :=
  exists r,
    In r index /\ contains monthly r = true /\
    expiration_date o = add_days r 30 /\
    Forall (Z.lt r) later.

(** The first trading day of each calendar month present in a sequence of
    trading days: a date of the sequence with no earlier date of the
    sequence in its month. *)
Definition same_month (a b : Timestamp) : bool :=
  (month_number a =? month_number b)%Z.

Definition first_trading_day (index : list Timestamp) (t : Timestamp) : bool :=
  negb (existsb (fun u => (u <? t)%Z && same_month u t) index).

Definition first_trading_days (index : list Timestamp) : list Timestamp :=
  filter (first_trading_day index) index.

(** The premium as the specification writes it, with [Phi] the standard
    normal distribution function. *)
Definition OptionPricer_price (S K T r sigma : R) : R :=
  let Phi := norm_cdf in
  let d1 := (ln (S / K) + (r + 0.5 * Rsqr sigma) * T) / (sigma * sqrt T) in
  let d2 := d1 - sigma * sqrt T in
  S * Phi d1 - K * exp (- (r * T)) * Phi d2.

(** A cell of a column that is missing or holds 0. *)
Definition missing_or_zero (c : option R) : Prop := c = None \/ c = Some 0.

(** *** Inputs of the examples *)

(** A flat history of [n] closing prices on consecutive days from [d]. *)
Definition flat_history (d : Timestamp) (p : R) (n : nat) : list (Timestamp * R) :=
  map (fun i => (add_days d (Z.of_nat i), p)) (seq 0 n).

(** A simulated range of one trading day. *)
Definition single_day : list Row :=
  [ mkRow (days_from_civil 2021 2 1) 100 0 0.2 ].

(** Friday 28 February, Monday 2 March and Tuesday 3 March 2020: the first
    of March is a Sunday. *)
Definition feb_mar_2020 : list Row :=
  [ mkRow (days_from_civil 2020 2 28) 100 0 0.2;
    mkRow (days_from_civil 2020 3 2) 100 0 0.2;
    mkRow (days_from_civil 2020 3 3) 100 0 0.2 ].

(** Two trading days that open consecutive months 28 days apart. *)
Definition feb_mar_2021 : list Row :=
  [ mkRow (days_from_civil 2021 2 1) 100 0 0.2;
    mkRow (days_from_civil 2021 3 1) 100 0 0.2 ].

(** Two trading days that open consecutive months 30 days apart. *)
Definition apr_may_2020 : list Row :=
  [ mkRow (days_from_civil 2020 4 1) 100 0 0.2;
    mkRow (days_from_civil 2020 5 1) 100 0 0.2 ].

(** *** Vocabulary of the further properties *)

(** The expression the loop records as [portfolio_val], at price [S]. *)
Definition marked_value (b : Book) (S : R) : R :=
  cash b + IZR (shares b) * S.

(** [call_premium] as the loop computes it on a roll date. *)
Definition call_premium (S sigma : R) : R :=
  black_scholes_call S (S * 1.05) (30 / 252) risk_free_rate sigma *
  IZR shares_per_contract.

(** A position that is due and whose strike the price exceeds. *)
Definition in_the_money (currentDate : Timestamp) (currentPrice : R) (o : Position)
  : bool :=
  due currentDate o && (if Rgt_dec currentPrice (K o) then true else false).

(** Expiration dates at least [g] days apart, in list order. *)
Definition expirations_apart (g : Z) (p q : Position) : Prop :=
  (expiration_date p + g <= expiration_date q)%Z.

(** The position [o] is the call written on some roll date among [rows]. *)
Definition written_in (monthly : list Timestamp) (rows : list Row) (o : Position)
  : Prop :=
  exists row,
    In row rows /\ contains monthly (Date row) = true /\
    o = mkPosition (add_days (Date row) 30) (Price row * 1.05).

(** Every closing price multiplied by [c]. *)
Definition scale_prices (c : R) (data : list (Timestamp * R))
  : list (Timestamp * R) :=
  map (fun dp => (fst dp, c * snd dp)) data.

(** ** Calendar facts *)

(** Goals over divisions by constants: name the quotients and remainders,
    then linear arithmetic. *)
Ltac euclid := Z.to_euclidean_division_equations; lia.

Section CalendarFacts.

Local Open Scope Z_scope.

Lemma year_of_era_recovered (yoe doy : Z) :
  0 <= yoe < 400 -> 0 <= doy < 365 ->
  let doe := yoe * 365 + yoe / 4 - yoe / 100 + doy in
  0 <= doe < 146097 /\
  (doe - doe / 1460 + doe / 36524 - doe / 146096) / 365 = yoe.
Proof.
  intros Hy Hd doe. subst doe.
  split; euclid.
Qed.

Lemma civil_from_days_parts (era yoe doy : Z) :
  0 <= yoe < 400 -> 0 <= doy < 365 ->
  civil_from_days (era * 146097 + (yoe * 365 + yoe / 4 - yoe / 100 + doy) - 719468) =
  let mp := (5 * doy + 2) / 153 in
  let m := if mp <? 10 then mp + 3 else mp - 9 in
  let y := yoe + era * 400 in
  ((if m <=? 2 then y + 1 else y), m, doy - (153 * mp + 2) / 5 + 1).
Proof.
  intros Hy Hd.
  destruct (year_of_era_recovered Hy Hd) as [Hdoe Hyoe].
  cbv zeta in Hdoe, Hyoe. unfold civil_from_days. cbv zeta.
  set (doe := yoe * 365 + yoe / 4 - yoe / 100 + doy) in *.
  replace (era * 146097 + doe - 719468 + 719468) with (doe + era * 146097) by ring.
  rewrite Z.div_add, (Z.div_small doe) by lia.
  replace (doe + era * 146097 - (0 + era) * 146097) with doe by ring.
  rewrite Hyoe.
  replace (doe - (365 * yoe + yoe / 4 - yoe / 100)) with doy by (subst doe; ring).
  replace (0 + era) with era by ring.
  reflexivity.
Qed.

Lemma civil_from_days_month_start (k : Z) :
  civil_from_days (month_start k) = (k / 12, k mod 12 + 1, 1).
Proof.
  unfold month_start, days_from_civil. cbv zeta.
  set (y := k / 12). set (m := k mod 12 + 1).
  assert (Hm : 1 <= m <= 12) by (subst m; pose proof (Z.mod_pos_bound k 12); lia).
  set (y' := if m <=? 2 then y - 1 else y).
  set (mp := if 2 <? m then m - 3 else m + 9).
  assert (Hmp : 0 <= mp <= 11) by (subst mp; destruct (Z.ltb_spec 2 m); lia).
  set (era := y' / 400).
  set (yoe := y' - era * 400).
  replace ((153 * mp + 2) / 5 + 1 - 1) with ((153 * mp + 2) / 5) by ring.
  rewrite civil_from_days_parts.
  - cbv zeta.
    assert (Hmp' : (5 * ((153 * mp + 2) / 5) + 2) / 153 = mp)
      by euclid.
    rewrite Hmp'.
    replace ((153 * mp + 2) / 5 - (153 * mp + 2) / 5 + 1) with 1 by ring.
    replace (yoe + era * 400) with y' by (subst yoe; ring).
    subst mp y'.
    destruct (Z.ltb_spec 2 m); destruct (Z.leb_spec m 2); try lia.
    + destruct (Z.ltb_spec (m - 3) 10).
      * replace (m - 3 + 3) with m by ring.
        destruct (Z.leb_spec m 2); [lia |]. reflexivity.
      * lia.
    + destruct (Z.ltb_spec (m + 9) 10); [lia|].
      replace (m + 9 - 9) with m by ring. destruct (Z.leb_spec m 2); [|lia].
      replace (y - 1 + 1) with y by ring. reflexivity.
  - subst yoe era. euclid.
  - euclid.
Qed.

(** The parts [civil_from_days] computes, their ranges, and the month
    count and the day of the month in terms of them. *)
Lemma civil_parts (t : Timestamp) :
  exists era doe yoe doy mp,
    t + 719468 = era * 146097 + doe /\ 0 <= doe < 146097 /\
    yoe = (doe - doe / 1460 + doe / 36524 - doe / 146096) / 365 /\
    doy = doe - (365 * yoe + yoe / 4 - yoe / 100) /\
    mp = (5 * doy + 2) / 153 /\
    0 <= yoe < 400 /\ 0 <= doy /\ 0 <= mp <= 11 /\
    month_number t = 12 * (yoe + 400 * era) + mp + 2 /\
    day t = doy - (153 * mp + 2) / 5 + 1.
Proof.
  unfold month_number, year, month, day, civil_from_days. cbv zeta. cbn [fst snd].
  set (z := t + 719468).
  set (era := z / 146097).
  set (doe := z - era * 146097).
  set (yoe := (doe - doe / 1460 + doe / 36524 - doe / 146096) / 365).
  set (doy := doe - (365 * yoe + yoe / 4 - yoe / 100)).
  set (mp := (5 * doy + 2) / 153).
  assert (Hdoe : 0 <= doe < 146097).
  { subst doe era. pose proof (Z.mod_pos_bound z 146097) as Hmod.
    rewrite Z.mod_eq in Hmod by lia. lia. }
  assert (Hyoe : 0 <= yoe < 400).
  { subst yoe. euclid. }
  assert (Hdoy : 0 <= doy <= 365).
  { subst doy yoe. euclid. }
  assert (Hmp : 0 <= mp <= 11).
  { subst mp. euclid. }
  exists era, doe, yoe, doy, mp.
  repeat split; try lia; try reflexivity.
  - destruct (Z.ltb_spec mp 10).
    + destruct (Z.leb_spec (mp + 3) 2); lia.
    + destruct (Z.leb_spec (mp - 9) 2); lia.
Qed.

Lemma month_number_monotone (t1 t2 : Timestamp) :
  t1 <= t2 -> month_number t1 <= month_number t2.
Proof.
  intros Hle.
  destruct (civil_parts t1)
    as (era1 & doe1 & yoe1 & doy1 & mp1 &
        Hz1 & Hd1 & Hy1 & Hdy1 & Hm1 & By1 & Bd1 & Bm1 & -> & _).
  destruct (civil_parts t2)
    as (era2 & doe2 & yoe2 & doy2 & mp2 &
        Hz2 & Hd2 & Hy2 & Hdy2 & Hm2 & By2 & Bd2 & Bm2 & -> & _).
  assert (Hera : era1 <= era2) by lia.
  destruct (Z.eq_dec era1 era2) as [-> | Hne]; [| lia].
  assert (Hdoe : doe1 <= doe2) by lia.
  clear Hz1 Hz2 Hle Hera.
  assert (Hyy : yoe1 <= yoe2).
  { subst yoe1 yoe2. euclid. }
  destruct (Z.eq_dec yoe1 yoe2) as [Heq | Hne]; [| lia].
  rewrite Heq in *.
  assert (Hdoy : doy1 <= doy2) by lia.
  assert (Hmp : mp1 <= mp2) by (subst mp1 mp2; euclid).
  lia.
Qed.

Lemma days_from_civil_roundtrip (t : Timestamp) :
  days_from_civil (year t) (month t) (day t) = t.
Proof.
  unfold year, month, day, civil_from_days. cbv zeta. cbn [fst snd].
  set (z := t + 719468).
  set (era := z / 146097).
  set (doe := z - era * 146097).
  set (yoe := (doe - doe / 1460 + doe / 36524 - doe / 146096) / 365).
  set (doy := doe - (365 * yoe + yoe / 4 - yoe / 100)).
  set (mp := (5 * doy + 2) / 153).
  assert (Hdoe : 0 <= doe < 146097).
  { subst doe era. pose proof (Z.mod_pos_bound z 146097) as Hmod.
    rewrite Z.mod_eq in Hmod by lia. lia. }
  assert (Hyoe : 0 <= yoe < 400).
  { subst yoe. euclid. }
  assert (Hdoy : 0 <= doy <= 365).
  { subst doy yoe. euclid. }
  assert (Hmp : 0 <= mp <= 11).
  { subst mp. euclid. }
  assert (Hera : (yoe + era * 400) / 400 = era).
  { rewrite Z.div_add, Z.div_small by lia. ring. }
  unfold days_from_civil. cbv zeta.
  set (m := if mp <? 10 then mp + 3 else mp - 9).
  assert (Hy' : (if m <=? 2
                 then (if m <=? 2 then yoe + era * 400 + 1 else yoe + era * 400) - 1
                 else (if m <=? 2 then yoe + era * 400 + 1 else yoe + era * 400))
                = yoe + era * 400).
  { destruct (m <=? 2); ring. }
  rewrite Hy', Hera.
  assert (Hmp' : (if 2 <? m then m - 3 else m + 9) = mp).
  { subst m. destruct (Z.ltb_spec mp 10).
    - destruct (Z.ltb_spec 2 (mp + 3)); lia.
    - destruct (Z.ltb_spec 2 (mp - 9)); lia. }
  rewrite Hmp'.
  replace (yoe + era * 400 - era * 400) with yoe by ring.
  assert (Edoy : doy = doe - (365 * yoe + yoe / 4 - yoe / 100)) by reflexivity.
  assert (Edoe : doe = z - era * 146097) by reflexivity.
  assert (Ez : z = t + 719468) by reflexivity.
  rewrite Edoy, Edoe, Ez. unfold Timestamp. ring.
Qed.

Lemma month_start_of_first_day (t : Timestamp) :
  day t = 1 -> month_start (month_number t) = t.
Proof.
  intros Hday. unfold month_start, month_number.
  assert (Hm : 1 <= month t <= 12).
  { unfold month, civil_from_days. cbv zeta. cbn [fst snd].
    match goal with |- context [if ?mp <? 10 then _ else _] =>
      assert (0 <= mp <= 11) by (euclid);
      destruct (Z.ltb_spec mp 10); lia end. }
  replace ((year t * 12 + (month t - 1)) / 12) with (year t)
    by (euclid).
  replace ((year t * 12 + (month t - 1)) mod 12 + 1) with (month t)
    by (euclid).
  rewrite <- Hday. apply days_from_civil_roundtrip.
Qed.

Lemma fold_min_le (t : Z) (l : list Z) :
  fold_right Z.min t l <= t /\ forall d, In d l -> fold_right Z.min t l <= d.
Proof.
  induction l as [| x l [IH1 IH2]]; cbn [fold_right In].
  - split; [lia | tauto].
  - split; [lia |]. intros d [<- | Hd]; [lia |]. specialize (IH2 d Hd). lia.
Qed.

Lemma fold_max_ge (t : Z) (l : list Z) :
  t <= fold_right Z.max t l /\ forall d, In d l -> d <= fold_right Z.max t l.
Proof.
  induction l as [| x l [IH1 IH2]]; cbn [fold_right In].
  - split; [lia | tauto].
  - split; [lia |]. intros d [<- | Hd]; [lia |]. specialize (IH2 d Hd). lia.
Qed.

Lemma In_Zrange (a k : Z) (n : nat) :
  In k (Zrange a n) <-> a <= k < a + Z.of_nat n.
Proof.
  unfold Zrange. rewrite in_map_iff. split.
  - intros (i & <- & Hi). apply in_seq in Hi. lia.
  - intros Hk. exists (Z.to_nat (k - a)). split; [lia |]. apply in_seq. lia.
Qed.

(** The test [current_date in monthly_dates] holds exactly on the dates of
    the index that are the first calendar day of their month. *)
Lemma roll_test_is_first_calendar_day (index : list Timestamp) (d : Timestamp) :
  In d index ->
  contains (resample_MS_index index) d = (day d =? 1).
Proof.
  intros Hd. destruct index as [| t rest]; [destruct Hd |].
  unfold contains, resample_MS_index.
  set (lo := month_number (fold_right Z.min t rest)).
  set (hi := month_number (fold_right Z.max t rest)).
  apply eq_true_iff_eq. rewrite existsb_exists, Z.eqb_eq. split.
  - intros (x & Hx & Heq). apply Z.eqb_eq in Heq. subst x.
    apply in_map_iff in Hx. destruct Hx as (k & <- & _).
    unfold day. rewrite civil_from_days_month_start. reflexivity.
  - intros Hday. exists d. split; [| apply Z.eqb_refl].
    apply in_map_iff. exists (month_number d).
    split; [apply month_start_of_first_day, Hday |].
    apply In_Zrange.
    destruct (fold_min_le t rest) as [Hmin1 Hmin2].
    destruct (fold_max_ge t rest) as [Hmax1 Hmax2].
    assert (Hlo : fold_right Z.min t rest <= d)
      by (destruct Hd as [<- | Hd]; [exact Hmin1 | apply Hmin2, Hd]).
    assert (Hhi : d <= fold_right Z.max t rest)
      by (destruct Hd as [<- | Hd]; [exact Hmax1 | apply Hmax2, Hd]).
    apply month_number_monotone in Hlo, Hhi. fold lo in Hlo. fold hi in Hhi.
    lia.
Qed.

Lemma roll_dates_are_first_calendar_days (index : list Timestamp) :
  roll_dates (resample_MS_index index) index = filter (fun d => day d =? 1) index.
Proof.
  unfold roll_dates. apply filter_ext_in.
  intros d Hd. apply roll_test_is_first_calendar_day, Hd.
Qed.

End CalendarFacts.

(** ** The pricer (C9) *)

Lemma np_true_divide_finite (n d : R) :
  d <> 0 -> np_true_divide n d = Fin (n / d).
Proof.
  intros Hd. unfold np_true_divide.
  destruct (Req_dec_T d 0); [contradiction | reflexivity].
Qed.

(** C9.  For positive spot, strike, tenor and volatility and any rate the
    pricer returns [S * Phi d1 - K * exp (- r T) * Phi d2] with [d1] and
    [d2] as the specification defines them; the result depends on the five
    arguments alone. *)
Theorem black_scholes_call_is_the_closed_form (S K T r sigma : R) :
  0 < S -> 0 < K -> 0 < T -> 0 < sigma ->
  black_scholes_call S K T r sigma = OptionPricer_price S K T r sigma.
Proof.
  intros _ _ HT Hsigma. unfold black_scholes_call, OptionPricer_price.
  rewrite np_true_divide_finite
    by (apply Rgt_not_eq, Rmult_lt_0_compat; [exact Hsigma | apply sqrt_lt_R0, HT]).
  cbn [np_subtract norm_cdf_at].
  replace (sigma ^ 2) with (Rsqr sigma) by (unfold Rsqr; ring).
  replace (- r * T) with (- (r * T)) by ring.
  reflexivity.
Qed.

Lemma black_scholes_call_is_the_closed_form_witness :
  black_scholes_call 100 105 (30 / 252) 0.01 0.2 =
  OptionPricer_price 100 105 (30 / 252) 0.01 0.2.
Proof.
  apply black_scholes_call_is_the_closed_form; lra.
Defined.

Lemma norm_cdf_0 : norm_cdf 0 = 1 / 2.
Proof. unfold norm_cdf. rewrite RiemannInt_P9. lra. Qed.

(** ** Properties of the expiration step *)

Section Expiration.

Variable current_date : Timestamp.
Variable S : R.

Lemma geb_due (pos : Position) :
  (current_date >=? expiration_date pos)%Z = due current_date pos.
Proof. unfold due. apply Z.geb_leb. Qed.

Lemma check_expiration_fold (ps : list Position) :
  forall c s rm,
    check_expiration current_date S ps c s rm =
    (fold_left (exercise_or_lapse S) (filter (due current_date) ps) (c, s),
     rm ++ filter (due current_date) ps).
Proof.
  induction ps as [| pos rest IH]; intros c s rm; simpl.
  - rewrite app_nil_r. reflexivity.
  - rewrite geb_due. destruct (due current_date pos) eqn:Hdue; simpl.
    + unfold exercise_or_lapse at 2. simpl.
      destruct (Rgt_dec S (K pos)); rewrite IH, <- app_assoc; reflexivity.
    + apply IH.
Qed.

Lemma list_remove_head (x : Position) (l : list Position) :
  list_remove x (x :: l) = Returned l.
Proof. simpl. destruct (Position_eq_dec x x); congruence. Qed.

Lemma list_remove_other (x y : Position) (l : list Position) :
  y <> x ->
  list_remove x (y :: l) = (l' <- list_remove x l ;; Returned (y :: l')).
Proof. intros Hne. simpl. destruct (Position_eq_dec y x); congruence. Qed.

Lemma remove_positions_skip (xs : list Position) :
  forall y l,
    ~ In y xs ->
    remove_positions xs (y :: l) =
    (l' <- remove_positions xs l ;; Returned (y :: l')).
Proof.
  induction xs as [| x xs IH]; intros y l Hnin.
  - reflexivity.
  - cbn [remove_positions].
    rewrite list_remove_other by (intros ->; apply Hnin; left; reflexivity).
    destruct (list_remove x l) as [l'' |]; cbn [bind]; [| reflexivity].
    apply IH. intros Hin. apply Hnin. right. exact Hin.
Qed.

Lemma remove_positions_filter (f : Position -> bool) (ps : list Position) :
  remove_positions (filter f ps) ps =
  Returned (filter (fun p => negb (f p)) ps).
Proof.
  induction ps as [| y l IH]; [reflexivity |].
  cbn [filter]. destruct (f y) eqn:Hf; cbn [remove_positions negb].
  - rewrite list_remove_head. cbn [bind]. exact IH.
  - rewrite remove_positions_skip.
    + rewrite IH. reflexivity.
    + intros Hin. apply filter_In in Hin. destruct Hin as [_ Hy]. congruence.
Qed.

Lemma option_expiration_resolveExpirations (b : Book) :
  option_expiration current_date S b =
  Returned (resolveExpirations current_date S b).
Proof.
  unfold option_expiration, resolveExpirations.
  rewrite check_expiration_fold. simpl app.
  destruct (fold_left _ _ _) as [c s] eqn:Hfold.
  rewrite remove_positions_filter. reflexivity.
Qed.

End Expiration.

(** ** The expiration step against the specification (C7) *)

Lemma none_due_all_open (d : Timestamp) (ps : list Position) :
  filter (due d) ps = [] -> filter (still_open d) ps = ps.
Proof.
  induction ps as [| o ps IH]; [reflexivity |].
  unfold still_open in *. cbn [filter]. destruct (due d o); cbn [negb].
  - discriminate.
  - intros H. rewrite IH by exact H. reflexivity.
Qed.

(** C7.  The expiration step of the loop is [resolveExpirations]: it
    returns (it never raises), it walks the open positions whose expiration
    date is on or before the current date, in order, and for each of them
    adds [shares * K] to the cash and zeroes the shares when the price is
    above the strike and changes neither otherwise; it removes exactly
    these positions and keeps the others, in their order; the recorded
    samples are untouched; with no position due the state is unchanged. *)
Theorem option_expiration_resolves_exactly_the_due (d : Timestamp) (S : R) (b : Book) :
  exists b',
    option_expiration d S b = Returned b' /\
    positions b' = filter (still_open d) (positions b) /\
    (cash b', shares b') =
      fold_left (exercise_or_lapse S) (filter (due d) (positions b))
        (cash b, shares b) /\
    portfolio_value b' = portfolio_value b /\
    dates b' = dates b /\
    (filter (due d) (positions b) = [] -> b' = b) /\
    (forall o, filter (due d) (positions b) = [o] -> S > K o ->
       cash b' = cash b + IZR (shares b) * K o /\ shares b' = 0%Z) /\
    (forall o, filter (due d) (positions b) = [o] -> ~ S > K o ->
       cash b' = cash b /\ shares b' = shares b).
Proof.
  exists (resolveExpirations d S b).
  split; [apply option_expiration_resolveExpirations |].
  unfold resolveExpirations. cbn [positions cash shares portfolio_value dates].
  repeat split.
  - symmetry. apply surjective_pairing.
  - intros Hnone. rewrite Hnone, none_due_all_open by exact Hnone.
    destruct b; reflexivity.
  - rewrite H. cbn [fold_left]. unfold exercise_or_lapse.
    destruct (Rgt_dec S (K o)); [reflexivity | contradiction].
  - rewrite H. cbn [fold_left]. unfold exercise_or_lapse.
    destruct (Rgt_dec S (K o)); [reflexivity | contradiction].
  - rewrite H. cbn [fold_left]. unfold exercise_or_lapse.
    destruct (Rgt_dec S (K o)); [contradiction | reflexivity].
  - rewrite H. cbn [fold_left]. unfold exercise_or_lapse.
    destruct (Rgt_dec S (K o)); [contradiction | reflexivity].
Qed.

(** The scenario of the specification: the price jumps to 120 on the day
    a call struck at 105 expires, over 100 shares. *)
Example exercise_at_120_over_strike_105 (d : Timestamp) (c : R) :
  option_expiration d 120 (mkBook c 100 [] [] [mkPosition d 105]) =
  Returned (mkBook (c + 100 * 105) 0 [] [] []).
Proof.
  rewrite option_expiration_resolveExpirations.
  unfold resolveExpirations, still_open, due.
  cbn [positions filter expiration_date]. rewrite Z.leb_refl.
  cbn [negb fold_left cash shares portfolio_value dates].
  unfold exercise_or_lapse. cbn [K fst snd].
  destruct (Rgt_dec 120 105); [reflexivity | lra].
Qed.

(** ** Properties of the day loop *)

Section DayLoop.

Variable monthly : list Timestamp.

Lemma simulate_day_result (b : Book) (row : Row) :
  simulate_day monthly b row = Returned (day_result monthly b row).
Proof.
  unfold simulate_day, day_result.
  rewrite option_expiration_resolveExpirations. reflexivity.
Qed.

Lemma simulate_fold (rows : list Row) :
  forall b, simulate monthly rows b = Returned (fold_left (day_result monthly) rows b).
Proof.
  induction rows as [| row rest IH]; intros b; cbn [simulate fold_left].
  - reflexivity.
  - rewrite simulate_day_result. cbn [bind]. apply IH.
Qed.

Lemma simulate_app (l1 l2 : list Row) (b : Book) :
  simulate monthly (l1 ++ l2) b =
  (b' <- simulate monthly l1 b ;; simulate monthly l2 b').
Proof.
  rewrite !simulate_fold. cbn [bind]. rewrite simulate_fold, fold_left_app.
  reflexivity.
Qed.

Lemma after_days_returns (rows : list Row) (n : nat) :
  after_days monthly rows n =
  Returned (fold_left (day_result monthly) (firstn n rows) initial).
Proof. unfold after_days. apply simulate_fold. Qed.

(** *** Samples *)

Lemma sell_call_samples d S sigma (b : Book) :
  portfolio_value (sell_call monthly d S sigma b) = portfolio_value b /\
  dates (sell_call monthly d S sigma b) = dates b.
Proof. unfold sell_call. destruct (contains monthly d); split; reflexivity. Qed.

Lemma day_result_samples (b : Book) (row : Row) :
  portfolio_value (day_result monthly b row) =
    portfolio_value b ++ [cash b + IZR (shares b) * Price row] /\
  dates (day_result monthly b row) = dates b ++ [Date row].
Proof.
  unfold day_result.
  destruct (sell_call_samples (Date row) (Price row) (Volatility row)
              (resolveExpirations (Date row) (Price row)
                 (update_portfolio_value (Date row) (Price row) b))) as [-> ->].
  split; reflexivity.
Qed.

Lemma fold_samples (rows : list Row) :
  forall b, exists vs,
    portfolio_value (fold_left (day_result monthly) rows b) = portfolio_value b ++ vs /\
    length vs = length rows /\
    dates (fold_left (day_result monthly) rows b) = dates b ++ map Date rows.
Proof.
  induction rows as [| row rest IH]; intros b; cbn [fold_left].
  - exists []. rewrite !app_nil_r. repeat split.
  - destruct (IH (day_result monthly b row)) as (vs & Hpv & Hlen & Hds).
    destruct (day_result_samples b row) as [Hpv1 Hds1].
    exists ((cash b + IZR (shares b) * Price row) :: vs).
    rewrite Hpv, Hds, Hpv1, Hds1, <- !app_assoc. cbn.
    repeat split. now rewrite Hlen.
Qed.

(** *** Shares *)

Lemma exercise_or_lapse_shares S (os : list Position) :
  forall c s,
    snd (fold_left (exercise_or_lapse S) os (c, s)) = s \/
    snd (fold_left (exercise_or_lapse S) os (c, s)) = 0%Z.
Proof.
  induction os as [| o os IH]; intros c s; cbn [fold_left].
  - left. reflexivity.
  - unfold exercise_or_lapse at 2 4. cbn [fst snd].
    destruct (Rgt_dec S (K o)).
    + destruct (IH (c + IZR s * K o) 0%Z) as [H | H]; right; exact H.
    + apply IH.
Qed.

Lemma update_portfolio_value_shares_ok d S (b : Book) :
  shares_ok b -> shares_ok (update_portfolio_value d S b).
Proof. intros H. exact H. Qed.

Lemma resolveExpirations_shares_ok d S (b : Book) :
  shares_ok b -> shares_ok (resolveExpirations d S b).
Proof.
  unfold shares_ok, resolveExpirations. cbn [shares]. intros H.
  destruct (exercise_or_lapse_shares S (filter (due d) (positions b))
              (cash b) (shares b)) as [-> | ->]; [exact H | left; reflexivity].
Qed.

Lemma sell_call_shares_ok d S sigma (b : Book) :
  shares_ok b -> shares_ok (sell_call monthly d S sigma b).
Proof.
  unfold shares_ok, sell_call. intros H.
  destruct (contains monthly d); [| exact H]. cbn [shares].
  destruct (shares b =? 0)%Z; [right; reflexivity | exact H].
Qed.

Lemma day_result_shares_ok (b : Book) (row : Row) :
  shares_ok b -> shares_ok (day_result monthly b row).
Proof.
  intros H. unfold day_result.
  apply sell_call_shares_ok, resolveExpirations_shares_ok,
    update_portfolio_value_shares_ok, H.
Qed.

Lemma fold_shares_ok (rows : list Row) :
  forall b, shares_ok b -> shares_ok (fold_left (day_result monthly) rows b).
Proof.
  induction rows as [| row rest IH]; intros b H; cbn [fold_left].
  - exact H.
  - apply IH, day_result_shares_ok, H.
Qed.

End DayLoop.

(** ** Shares (C8) *)

(** C8.  At every point of every run the share count is 0 or
    [shares_per_contract]: at the end of each day, and within the next day
    after the sample is taken, after the expiration step and after the
    call is sold. *)
Theorem shares_are_zero_or_one_contract
    (monthly : list Timestamp) (rows : list Row) (n : nat) :
  exists b,
    after_days monthly rows n = Returned b /\
    shares_ok b /\
    forall row,
      shares_ok (update_portfolio_value (Date row) (Price row) b) /\
      exists b2,
        option_expiration (Date row) (Price row)
          (update_portfolio_value (Date row) (Price row) b) = Returned b2 /\
        shares_ok b2 /\
        shares_ok (sell_call monthly (Date row) (Price row) (Volatility row) b2).
Proof.
  exists (fold_left (day_result monthly) (firstn n rows) initial).
  split; [apply after_days_returns |].
  assert (Hb : shares_ok (fold_left (day_result monthly) (firstn n rows) initial)).
  { apply fold_shares_ok. left. reflexivity. }
  split; [exact Hb |].
  intros row. split; [exact Hb |].
  eexists. split; [apply option_expiration_resolveExpirations |].
  split.
  - apply resolveExpirations_shares_ok. exact Hb.
  - apply sell_call_shares_ok, resolveExpirations_shares_ok. exact Hb.
Qed.

(** ** Samples (C5, C6) *)

(** C6.  The sample recorded for a day is [cash + shares * price] with the
    cash and the shares as they stood when the day began, that is after
    the days before it and before the day's own expiration and roll
    steps. *)
Theorem sample_marks_the_state_at_the_start_of_the_day
    (monthly : list Timestamp) (before : list Row) (row : Row) (later : list Row) :
  exists b0 b,
    simulate monthly before initial = Returned b0 /\
    simulate monthly (before ++ row :: later) initial = Returned b /\
    nth_error (portfolio_value b) (length before) =
      Some (cash b0 + IZR (shares b0) * Price row) /\
    nth_error (dates b) (length before) = Some (Date row).
Proof.
  exists (fold_left (day_result monthly) before initial).
  exists (fold_left (day_result monthly) (before ++ row :: later) initial).
  split; [apply simulate_fold |]. split; [apply simulate_fold |].
  rewrite fold_left_app. cbn [fold_left].
  set (b0 := fold_left (day_result monthly) before initial).
  destruct (fold_samples monthly before initial) as (vs0 & Hpv0 & Hlen0 & Hds0).
  fold b0 in Hpv0, Hds0. cbn in Hpv0, Hds0.
  destruct (fold_samples monthly later (day_result monthly b0 row))
    as (vs & Hpv & _ & Hds).
  destruct (day_result_samples monthly b0 row) as [Hpv1 Hds1].
  rewrite Hpv, Hds, Hpv1, Hds1, Hpv0, Hds0, <- !app_assoc.
  split.
  - rewrite nth_error_app2 by lia. rewrite Hlen0, Nat.sub_diag. reflexivity.
  - rewrite nth_error_app2 by (rewrite length_map; lia).
    rewrite length_map, Nat.sub_diag. reflexivity.
Qed.

(** C5.  On a non-empty range the first recorded sample is exactly 0, so
    the total return of the strategy divides by a zero first sample and is
    undefined. *)
Theorem first_sample_is_zero (row : Row) (rest : list Row) :
  exists b vs,
    run_simulation (row :: rest) = Returned b /\
    portfolio_value b = 0 :: vs /\
    first_item (portfolio_value b) = Returned 0 /\
    total_return (portfolio_value b) = Returned None.
Proof.
  unfold run_simulation. generalize (monthly_dates (row :: rest)). intros monthly.
  destruct (fold_samples monthly rest (day_result monthly initial row))
    as (vs & Hpv & _ & _).
  destruct (day_result_samples monthly initial row) as [Hpv1 _].
  rewrite Hpv1 in Hpv. cbn in Hpv.
  replace (0 + 0 * Price row) with 0 in Hpv by ring.
  exists (fold_left (day_result monthly) (row :: rest) initial), vs.
  split; [apply simulate_fold |]. cbn [fold_left]. rewrite Hpv.
  split; [reflexivity |]. split; [reflexivity |].
  unfold total_return, last_item. cbn [rev first_item].
  destruct (rev vs) as [| x l]; cbn [app first_item bind]; unfold np_divide;
    destruct (Req_dec_T 0 0); congruence.
Qed.

(** ** Open obligations (C1) *)

Lemma positions_day_result (monthly : list Timestamp) (b : Book) (row : Row) :
  positions (day_result monthly b row) =
  filter (still_open (Date row)) (positions b) ++
  (if contains monthly (Date row)
   then [mkPosition (add_days (Date row) 30) (Price row * 1.05)]
   else []).
Proof.
  unfold day_result, sell_call.
  destruct (contains monthly (Date row)); cbn [positions resolveExpirations
    update_portfolio_value]; [reflexivity | symmetry; apply app_nil_r].
Qed.

Lemma In_firstn {A : Type} (x : A) (n : nat) :
  forall l, In x (firstn n l) -> In x l.
Proof.
  induction n as [| n IH]; intros [| y l]; cbn [firstn In]; try tauto.
  intros [-> | H]; [left; reflexivity | right; apply IH, H].
Qed.

Lemma StronglySorted_firstn (n : nat) :
  forall l : list Z, StronglySorted Z.lt l -> StronglySorted Z.lt (firstn n l).
Proof.
  induction n as [| n IH]; intros [| y l] Hs; cbn [firstn]; try constructor.
  - apply IH. apply StronglySorted_inv in Hs. tauto.
  - apply StronglySorted_inv in Hs. destruct Hs as [_ Hall].
    rewrite Forall_forall in *. intros x Hx. apply Hall, In_firstn with n, Hx.
Qed.

Section OpenObligations.

Variable monthly : list Timestamp.
Variable index : list Timestamp.
Hypothesis Hspaced : rolls_spaced 30 monthly index.

Lemma day_result_open (b : Book) (row : Row) (later : list Timestamp) :
  In (Date row) index ->
  Forall (Z.lt (Date row)) later ->
  (length (positions b) <= 1)%nat ->
  (forall o, In o (positions b) ->
     written_on_roll monthly index (Date row :: later) o) ->
  (length (positions (day_result monthly b row)) <= 1)%nat /\
  (forall o, In o (positions (day_result monthly b row)) ->
     written_on_roll monthly index later o).
Proof.
  intros Hin Hlater Hlen Hold.
  rewrite positions_day_result.
  assert (Hkeep : forall o, In o (filter (still_open (Date row)) (positions b)) ->
                            written_on_roll monthly index later o).
  { intros o Ho. apply filter_In in Ho. destruct Ho as [Ho _].
    destruct (Hold o Ho) as (r & Hr & Hroll & Hexp & Hall).
    exists r. repeat split; try assumption.
    apply Forall_inv_tail in Hall. exact Hall. }
  destruct (contains monthly (Date row)) eqn:Hroll.
  - assert (Hnil : filter (still_open (Date row)) (positions b) = []).
    { destruct (filter _ _) as [| o l] eqn:Hf; [reflexivity | exfalso].
      assert (Ho : In o (filter (still_open (Date row)) (positions b)))
        by (rewrite Hf; left; reflexivity).
      apply filter_In in Ho. destruct Ho as [Ho Hopen].
      destruct (Hold o Ho) as (r & Hr & Hrroll & Hexp & Hall).
      apply Forall_inv in Hall.
      pose proof Hspaced as Hsp. unfold rolls_spaced in Hsp.
      specialize (Hsp r (Date row) Hr Hin Hrroll Hroll Hall).
      unfold still_open, due in Hopen. rewrite Hexp in Hopen.
      unfold add_days in Hopen.
      apply negb_true_iff, Z.leb_gt in Hopen. lia. }
    rewrite Hnil. cbn [app length]. split; [lia |].
    intros o [<- | []]. exists (Date row). repeat split; assumption.
  - rewrite app_nil_r. split; [| exact Hkeep].
    etransitivity; [apply filter_length_le | exact Hlen].
Qed.

Lemma fold_open (rows : list Row) :
  forall b,
    StronglySorted Z.lt (map Date rows) ->
    incl (map Date rows) index ->
    (length (positions b) <= 1)%nat ->
    (forall o, In o (positions b) ->
       written_on_roll monthly index (map Date rows) o) ->
    (length (positions (fold_left (day_result monthly) rows b)) <= 1)%nat.
Proof.
  induction rows as [| row rest IH]; intros b Hs Hincl Hlen Hold;
    cbn [fold_left].
  - exact Hlen.
  - cbn [map] in Hs, Hincl, Hold.
    apply StronglySorted_inv in Hs. destruct Hs as [Hs Hall].
    destruct (@day_result_open b row (map Date rest)) as [Hlen' Hold'];
      try assumption.
    + apply Hincl. left. reflexivity.
    + apply IH; try assumption.
      intros d Hd. apply Hincl. right. exact Hd.
Qed.

End OpenObligations.

(** C1, as the claim states it, fails: after the roll of 1 March 2021 the
    call written on 1 February (it expires on 3 March) is still open beside
    the new one. *)
Lemma two_obligations_open_in_march_2021 :
  exists b,
    after_days (monthly_dates feb_mar_2021) feb_mar_2021 2 = Returned b /\
    length (positions b) = 2%nat.
Proof.
  eexists. split; [apply after_days_returns |]. reflexivity.
Qed.

(** C1, amended.  When the dates are strictly increasing and any two roll
    dates of the run are at least 30 days apart, every day of the loop ends
    with at most one open position. *)
Theorem at_most_one_open_when_rolls_are_30_days_apart
    (monthly : list Timestamp) (rows : list Row) (n : nat) :
  StronglySorted Z.lt (map Date rows) ->
  rolls_spaced 30 monthly (map Date rows) ->
  exists b,
    after_days monthly rows n = Returned b /\
    (length (positions b) <= 1)%nat.
Proof.
  intros Hsorted Hspaced.
  exists (fold_left (day_result monthly) (firstn n rows) initial).
  split; [apply after_days_returns |].
  apply fold_open with (index := map Date rows).
  - exact Hspaced.
  - rewrite <- firstn_map. apply StronglySorted_firstn, Hsorted.
  - rewrite <- firstn_map. intros d Hd. apply In_firstn with n, Hd.
  - cbn. lia.
  - intros o [].
Qed.

Lemma at_most_one_open_when_rolls_are_30_days_apart_witness :
  exists b,
    after_days (monthly_dates apr_may_2020) apr_may_2020 2 = Returned b /\
    (length (positions b) <= 1)%nat.
Proof.
  apply at_most_one_open_when_rolls_are_30_days_apart.
  - vm_compute. repeat constructor.
  - intros r1 r2 H1 H2 _ _ Hlt. vm_compute in H1, H2.
    destruct H1 as [<- | [<- | []]]; destruct H2 as [<- | [<- | []]]; lia.
Defined.

(** ** Option selling dates (C2) *)

(** C2.  The loop sells a call on the dates of the index that are month
    start labels, not on the first trading days: over 28 February, 2 March
    and 3 March 2020 the labels are 1 February and 1 March, neither is a
    trading day, and the run writes no call at all, although 28 February
    and 2 March are the first trading days of their months. *)
Theorem month_start_labels_miss_the_first_trading_days :
  monthly_dates feb_mar_2020 =
    [days_from_civil 2020 2 1; days_from_civil 2020 3 1] /\
  roll_dates (monthly_dates feb_mar_2020) (map Date feb_mar_2020) = [] /\
  first_trading_days (map Date feb_mar_2020) =
    [days_from_civil 2020 2 28; days_from_civil 2020 3 2] /\
  exists b,
    run_simulation feb_mar_2020 = Returned b /\
    positions b = [] /\ shares b = 0%Z.
Proof.
  split; [vm_compute; reflexivity |].
  split; [vm_compute; reflexivity |].
  split; [vm_compute; reflexivity |].
  eexists. split; [apply simulate_fold |]. split; reflexivity.
Qed.

(** ** The warm-up of the volatility column (C10) *)

Lemma observations_length (l : list (option R)) :
  (length (observations l) <= length l)%nat.
Proof.
  induction l as [| [x |] l IH]; cbn [observations length]; lia.
Qed.

Lemma observations_map_Some (xs : list R) :
  observations (map Some xs) = xs.
Proof.
  induction xs as [| x xs IH]; cbn [map observations]; congruence.
Qed.

Lemma returns_column_length (ps : list R) :
  forall prev, length (returns_column prev ps) = length ps.
Proof.
  induction ps as [| p ps IH]; intros prev; cbn [returns_column length];
    [reflexivity | now rewrite IH].
Qed.

Lemma returns_column_positive (ps : list R) :
  forall q,
    0 < q -> Forall (Rlt 0) ps ->
    exists xs, returns_column (Some q) ps = map Some xs /\ length xs = length ps.
Proof.
  induction ps as [| p ps IH]; intros q Hq Hps; cbn [returns_column].
  - exists []. split; reflexivity.
  - apply Forall_cons_iff in Hps. destruct Hps as [Hp Hps].
    destruct (IH p Hp Hps) as (xs & -> & Hlen).
    unfold log_return.
    destruct (Rlt_dec 0 (p / q)) as [_ | Hn].
    + exists (ln (p / q) :: xs). split; [reflexivity | cbn; now rewrite Hlen].
    + exfalso. apply Hn. apply Rdiv_lt_0_compat; assumption.
Qed.

Section Rolling.

Variable w : nat.
Hypothesis Hw : (2 <= w)%nat.

Lemma rolling_warm_up (rest : list (option R)) (i : nat) :
  (i < w)%nat -> rolling_std_at w i (None :: rest) = None.
Proof.
  intros Hi. unfold rolling_std_at, window_at.
  replace (i + 1 - w)%nat with 0%nat by lia.
  replace (i + 1)%nat with (S i) by lia.
  cbn [skipn firstn observations].
  pose proof (observations_length (firstn i rest)) as Hobs.
  pose proof (firstn_le_length i rest) as Hfirst.
  destruct (Nat.ltb_spec (length (observations (firstn i rest))) w);
    [reflexivity | lia].
Qed.

Lemma rolling_defined (xs : list R) (i : nat) :
  (w <= i)%nat -> (i <= length xs)%nat ->
  exists z, rolling_std_at w i (None :: map Some xs) = Some z.
Proof.
  intros Hwi Hi. unfold rolling_std_at, window_at.
  replace (i + 1 - w)%nat with (S (i - w)) by lia.
  replace (i + 1)%nat with (S i) by lia.
  cbn [skipn firstn].
  rewrite firstn_map, skipn_map, observations_map_Some.
  assert (Hlen : length (skipn (i - w) (firstn i xs)) = w)
    by (rewrite length_skipn, length_firstn; lia).
  rewrite Hlen, Nat.ltb_irrefl. unfold sample_std. rewrite Hlen.
  destruct (Nat.leb_spec w 1); [lia |]. eexists. reflexivity.
Qed.

Lemma map_all_None {A : Type} (f : nat -> option A) (l : list nat) :
  (forall i, In i l -> f i = None) -> map f l = repeat None (length l).
Proof.
  induction l as [| i l IH]; intros H; cbn [map length repeat]; [reflexivity |].
  rewrite H by (left; reflexivity). rewrite IH; [reflexivity |].
  intros j Hj. apply H. right. exact Hj.
Qed.

Lemma map_all_Some {A : Type} (f : nat -> option A) (l : list nat) :
  (forall i, In i l -> exists z, f i = Some z) ->
  exists zs, map f l = map Some zs /\ length zs = length l.
Proof.
  induction l as [| i l IH]; intros H.
  - exists []. split; reflexivity.
  - destruct (H i (or_introl eq_refl)) as [z Hz].
    destruct IH as (zs & Hzs & Hlen); [intros j Hj; apply H; right; exact Hj |].
    exists (z :: zs). cbn [map length]. rewrite Hz, Hzs, Hlen. split; reflexivity.
Qed.

Lemma rolling_column_short (rest : list (option R)) :
  (length (None :: rest) <= w)%nat ->
  rolling_std w (None :: rest) = repeat None (length (None :: rest)).
Proof.
  intros Hlen. unfold rolling_std.
  rewrite map_all_None; [now rewrite length_seq |].
  intros i Hi. apply in_seq in Hi. apply rolling_warm_up. lia.
Qed.

Lemma rolling_column_long (xs : list R) :
  (w <= length xs)%nat ->
  exists zs,
    rolling_std w (None :: map Some xs) = repeat None w ++ map Some zs /\
    length zs = (S (length xs) - w)%nat.
Proof.
  intros Hlen. unfold rolling_std. cbn [length]. rewrite length_map.
  assert (Hsplit : seq 0 (S (length xs)) =
                   seq 0 w ++ seq w (S (length xs) - w)).
  { change w with (0 + w)%nat at 2. rewrite <- seq_app. f_equal. lia. }
  rewrite Hsplit, map_app.
  rewrite map_all_None, length_seq.
  - destruct (@map_all_Some R
                (fun i => rolling_std_at w i (None :: map Some xs))
                (seq w (S (length xs) - w))) as (zs & Hzs & Hl).
    + intros i Hi. apply in_seq in Hi. apply rolling_defined; lia.
    + exists zs. rewrite Hzs, Hl, length_seq. split; reflexivity.
  - intros i Hi. apply in_seq in Hi. apply rolling_warm_up. lia.
Qed.

End Rolling.

Lemma dropna_volatility_None (k : nat) :
  forall ds ps rs, dropna (zip_rows ds ps rs (repeat None k)) = [].
Proof.
  induction k as [| k IH]; intros [| d ds] [| p ps] [| r rs];
    cbn [repeat zip_rows dropna raw_Returns raw_Volatility]; try reflexivity.
  destruct r; apply IH.
Qed.

Lemma dropna_skips_None_prefix (k : nat) :
  forall ds ps rs vs,
    (k <= length ds)%nat -> (k <= length ps)%nat -> (k <= length rs)%nat ->
    dropna (zip_rows ds ps rs (repeat None k ++ vs)) =
    dropna (zip_rows (skipn k ds) (skipn k ps) (skipn k rs) vs).
Proof.
  induction k as [| k IH]; intros ds ps rs vs Hd Hp Hr; [reflexivity |].
  destruct ds as [| d ds]; [cbn in Hd; lia |].
  destruct ps as [| p ps]; [cbn in Hp; lia |].
  destruct rs as [| r rs]; [cbn in Hr; lia |].
  cbn [length] in Hd, Hp, Hr.
  cbn [repeat app zip_rows dropna raw_Returns raw_Volatility skipn].
  destruct r; apply IH; lia.
Qed.

Lemma dropna_all_Some (ds : list Timestamp) :
  forall ps xs zs,
    length ps = length ds -> length xs = length ds -> length zs = length ds ->
    map Date (dropna (zip_rows ds ps (map Some xs) (map Some zs))) = ds.
Proof.
  induction ds as [| d ds IH]; intros ps xs zs Hp Hx Hz.
  - reflexivity.
  - destruct ps as [| p ps]; [discriminate |].
    destruct xs as [| x xs]; [discriminate |].
    destruct zs as [| z zs]; [discriminate |].
    cbn [map zip_rows dropna raw_Returns raw_Volatility raw_Date Date].
    cbn [length] in Hp, Hx, Hz. rewrite IH by lia. reflexivity.
Qed.

Lemma skipn_cons_pred {A : Type} (k : nat) (x : A) (l : list A) :
  (0 < k)%nat -> skipn k (x :: l) = skipn (k - 1) l.
Proof.
  destruct k as [| k]; [lia |]. intros _.
  replace (S k - 1)%nat with k by lia. reflexivity.
Qed.

Lemma data_df_short (data : list (Timestamp * R)) :
  (length data < window_size + 1)%nat -> data_df data = [].
Proof.
  intros Hlen. unfold data_df, build_frame.
  destruct data as [| [d p] rest]; [reflexivity |].
  cbn [map fst snd returns_column log_return].
  rewrite rolling_column_short.
  - rewrite map_repeat. apply dropna_volatility_None.
  - unfold window_size. lia.
  - cbn [length] in *. rewrite returns_column_length, length_map. lia.
Qed.

Lemma data_df_long (data : list (Timestamp * R)) :
  (window_size + 1 <= length data)%nat ->
  Forall (fun dp => 0 < snd dp) data ->
  map Date (data_df data) = skipn window_size (map fst data).
Proof.
  destruct data as [| [d p] rest]; cbn [length]; [lia |].
  intros Hlen Hpos. unfold data_df, build_frame.
  cbn [map fst snd returns_column log_return].
  apply Forall_cons_iff in Hpos. cbn [snd] in Hpos. destruct Hpos as [Hp Hrest].
  assert (Hrest' : Forall (Rlt 0) (map snd rest)).
  { apply Forall_map. exact Hrest. }
  destruct (returns_column_positive Hp Hrest') as (xs & -> & Hxs).
  rewrite length_map in Hxs.
  assert (Hw : (2 <= window_size)%nat) by (unfold window_size; lia).
  destruct (rolling_column_long Hw xs) as (zs & -> & Hzs); [lia |].
  rewrite map_app, map_repeat, map_map. cbn [annualize option_map].
  rewrite <- (map_map (fun s => s * sqrt 252) Some).
  rewrite dropna_skips_None_prefix
    by (cbn [length]; rewrite ?length_map; lia).
  rewrite (@skipn_cons_pred (option R)) by lia.
  rewrite skipn_map.
  apply dropna_all_Some;
    rewrite ?length_map, !length_skipn; cbn [length]; rewrite ?length_map; lia.
Qed.

(** C10.  With fewer than [window_size + 1] closing prices the frame is
    empty after [dropna], the loop has no day to run and returns with no
    sample, raising nothing.  With more, and positive prices, [dropna]
    removes exactly the first [window_size] dates and the loop records one
    sample for each of the remaining dates, in order. *)
Theorem warm_up_excludes_the_first_window (data : list (Timestamp * R)) :
  ((length data < window_size + 1)%nat ->
     data_df data = [] /\
     run_simulation (data_df data) = Returned initial /\
     portfolio_value initial = []) /\
  ((window_size + 1 <= length data)%nat ->
     Forall (fun dp => 0 < snd dp) data ->
     map Date (data_df data) = skipn window_size (map fst data) /\
     exists b,
       run_simulation (data_df data) = Returned b /\
       dates b = skipn window_size (map fst data) /\
       length (portfolio_value b) = (length data - window_size)%nat).
Proof.
  split.
  - intros Hlen. rewrite (data_df_short data Hlen).
    repeat split; reflexivity.
  - intros Hlen Hpos. pose proof (data_df_long Hlen Hpos) as Hdates.
    split; [exact Hdates |].
    exists (fold_left (day_result (monthly_dates (data_df data)))
              (data_df data) initial).
    split; [apply simulate_fold |].
    destruct (fold_samples (monthly_dates (data_df data)) (data_df data) initial)
      as (vs & -> & Hvs & ->).
    cbn [portfolio_value dates initial app]. rewrite Hdates.
    split; [reflexivity |].
    rewrite Hvs, <- (length_map Date), Hdates, length_skipn, length_map.
    reflexivity.
Qed.

Lemma warm_up_excludes_the_first_window_witness :
  (data_df (flat_history (days_from_civil 2021 1 4) 100 5) = [] /\
   run_simulation (data_df (flat_history (days_from_civil 2021 1 4) 100 5)) =
     Returned initial /\
   portfolio_value initial = []) /\
  (map Date (data_df (flat_history (days_from_civil 2021 1 2) 100 31)) =
     skipn window_size (map fst (flat_history (days_from_civil 2021 1 2) 100 31)) /\
   exists b,
     run_simulation (data_df (flat_history (days_from_civil 2021 1 2) 100 31)) =
       Returned b /\
     dates b =
       skipn window_size (map fst (flat_history (days_from_civil 2021 1 2) 100 31)) /\
     length (portfolio_value b) =
       (length (flat_history (days_from_civil 2021 1 2) 100 31) - window_size)%nat).
Proof.
  split.
  - apply (proj1 (warm_up_excludes_the_first_window
                    (flat_history (days_from_civil 2021 1 4) 100 5))).
    unfold flat_history, window_size. rewrite length_map, length_seq. lia.
  - apply (proj2 (warm_up_excludes_the_first_window
                    (flat_history (days_from_civil 2021 1 2) 100 31))).
    + unfold flat_history, window_size. rewrite length_map, length_seq. lia.
    + unfold flat_history. apply Forall_map, Forall_forall.
      intros i _. cbn [snd]. lra.
Defined.

(** ** Pricing on a roll date (C3) *)

(** With a zero divisor the pricer returns one of two numbers, by the sign
    of the numerator of [d1]. *)
Lemma black_scholes_call_zero_divisor (S K T r sigma : R) :
  sigma * sqrt T = 0 ->
  (0 < ln (S / K) + (r + 0.5 * sigma ^ 2) * T ->
   black_scholes_call S K T r sigma = S - K * exp (- r * T)) /\
  (ln (S / K) + (r + 0.5 * sigma ^ 2) * T < 0 ->
   black_scholes_call S K T r sigma = 0).
Proof.
  intros Hden. unfold black_scholes_call, np_true_divide.
  destruct (Req_dec_T (sigma * sqrt T) 0) as [_ | Hne]; [| contradiction].
  split; intros Hnum.
  - destruct (Rlt_dec 0 _) as [_ | Hn]; [| contradiction].
    cbn [np_subtract norm_cdf_at]. ring.
  - destruct (Rlt_dec 0 _) as [Hpos | _]; [lra |].
    destruct (Rlt_dec _ 0) as [_ | Hn]; [| contradiction].
    cbn [np_subtract norm_cdf_at]. ring.
Qed.

(** At the call site the strike is 5% above a positive spot, so with a
    volatility of 0 the numerator of [d1] is negative: [d1] and [d2] are
    [-inf], both distribution values are 0, and the premium is 0. *)
Lemma call_site_numerator_negative (S : R) :
  0 < S ->
  ln (S / (S * 1.05)) + (risk_free_rate + 0.5 * 0 ^ 2) * (30 / 252) < 0.
Proof.
  intros HS. unfold risk_free_rate.
  replace (S / (S * 1.05)) with (/ 1.05) by (field; lra).
  assert (Hexp : 1 + - (0.3 / 252) < exp (- (0.3 / 252)))
    by (apply exp_ineq1; lra).
  assert (Hln : ln (/ 1.05) < ln (exp (- (0.3 / 252)))).
  { apply ln_increasing; [apply Rinv_0_lt_compat; lra |].
    apply Rlt_trans with (1 + - (0.3 / 252)); [| exact Hexp].
    apply Rmult_lt_reg_l with 1.05; [lra |].
    rewrite Rinv_r by lra. lra. }
  rewrite ln_exp in Hln. lra.
Qed.

Lemma zero_volatility_premium (S : R) :
  0 < S ->
  black_scholes_call S (S * 1.05) (30 / 252) risk_free_rate 0 = 0.
Proof.
  intros HS. unfold black_scholes_call, np_true_divide.
  pose proof (call_site_numerator_negative HS) as Hnum.
  destruct (Req_dec_T (0 * sqrt (30 / 252)) 0) as [_ | Hne];
    [| exfalso; apply Hne; ring].
  destruct (Rlt_dec 0 _) as [Hpos | _]; [lra |].
  destruct (Rlt_dec _ 0) as [_ | Hneg]; [| contradiction].
  cbn [np_subtract norm_cdf_at]. ring.
Qed.

(** C3, amended.  On a roll date at a positive price the day completes for
    every volatility, zero and negative ones included: no guard stands
    between the data and the pricer, nothing is raised, and the cash left
    by the expiration step (less the purchase of the shares when flat)
    receives
    [black_scholes_call S (S * 1.05) (30 / 252) risk_free_rate sigma *
    shares_per_contract].  At a volatility of 0 that premium is the number
    0, not NaN, and the cash is left as it was. *)
Theorem roll_date_prices_every_volatility
    (monthly : list Timestamp) (b : Book) (row : Row) :
  contains monthly (Date row) = true ->
  0 < Price row ->
  exists b2 b',
    option_expiration (Date row) (Price row)
      (update_portfolio_value (Date row) (Price row) b) = Returned b2 /\
    simulate_day monthly b row = Returned b' /\
    cash b' =
      (if (shares b2 =? 0)%Z
       then cash b2 - IZR shares_per_contract * Price row
       else cash b2) +
      black_scholes_call (Price row) (Price row * 1.05) (30 / 252)
        risk_free_rate (Volatility row) * IZR shares_per_contract /\
    (Volatility row = 0 ->
       black_scholes_call (Price row) (Price row * 1.05) (30 / 252)
         risk_free_rate (Volatility row) = 0 /\
       cash b' =
         if (shares b2 =? 0)%Z
         then cash b2 - IZR shares_per_contract * Price row
         else cash b2).
Proof.
  intros Hroll Hprice.
  exists (resolveExpirations (Date row) (Price row)
            (update_portfolio_value (Date row) (Price row) b)).
  exists (day_result monthly b row).
  split; [apply option_expiration_resolveExpirations |].
  split; [apply simulate_day_result |].
  assert (Hcash :
    cash (day_result monthly b row) =
    (if (shares (resolveExpirations (Date row) (Price row)
                   (update_portfolio_value (Date row) (Price row) b)) =? 0)%Z
     then cash (resolveExpirations (Date row) (Price row)
                  (update_portfolio_value (Date row) (Price row) b)) -
          IZR shares_per_contract * Price row
     else cash (resolveExpirations (Date row) (Price row)
                  (update_portfolio_value (Date row) (Price row) b))) +
    black_scholes_call (Price row) (Price row * 1.05) (30 / 252)
      risk_free_rate (Volatility row) * IZR shares_per_contract).
  { unfold day_result, sell_call. rewrite Hroll. cbn [cash].
    destruct (shares _ =? 0)%Z; reflexivity. }
  split; [exact Hcash |].
  intros Hzero. rewrite Hcash, Hzero, (zero_volatility_premium Hprice).
  split; [reflexivity | ring].
Qed.

Lemma roll_date_prices_every_volatility_witness :
  exists b2 b',
    option_expiration (days_from_civil 2021 2 1) 100
      (update_portfolio_value (days_from_civil 2021 2 1) 100 initial) = Returned b2 /\
    simulate_day [days_from_civil 2021 2 1] initial
      (mkRow (days_from_civil 2021 2 1) 100 0 0) = Returned b' /\
    cash b' =
      (if (shares b2 =? 0)%Z
       then cash b2 - IZR shares_per_contract * 100
       else cash b2) +
      black_scholes_call 100 (100 * 1.05) (30 / 252) risk_free_rate 0 *
      IZR shares_per_contract /\
    (0 = 0 ->
       black_scholes_call 100 (100 * 1.05) (30 / 252) risk_free_rate 0 = 0 /\
       cash b' =
         if (shares b2 =? 0)%Z
         then cash b2 - IZR shares_per_contract * 100
         else cash b2).
Proof.
  apply (@roll_date_prices_every_volatility [days_from_civil 2021 2 1] initial
           (mkRow (days_from_civil 2021 2 1) 100 0 0)).
  - vm_compute. reflexivity.
  - cbn [Price]. lra.
Defined.

(** ** A flat price history gives a volatility of 0 *)

Lemma In_skipn {A : Type} (x : A) (n : nat) :
  forall l, In x (skipn n l) -> In x l.
Proof.
  induction n as [| n IH]; intros [| y l]; cbn [skipn In]; try tauto.
  intros H. right. apply IH, H.
Qed.

Lemma dropna_zip_In (ds : list Timestamp) :
  forall ps rs vs row,
    In row (dropna (zip_rows ds ps rs vs)) ->
    In (Date row) ds /\ In (Price row) ps /\ In (Some (Volatility row)) vs.
Proof.
  induction ds as [| d ds IH]; intros [| p ps] [| r rs] [| v vs] row;
    cbn [zip_rows dropna raw_Returns raw_Volatility raw_Date raw_Price In];
    try tauto.
  destruct r as [r |]; [destruct v as [v |] |].
  - intros [<- | Hin].
    + cbn [Date Price Volatility]. repeat split; left; reflexivity.
    + destruct (IH _ _ _ _ Hin) as (H1 & H2 & H3). repeat split; right; assumption.
  - intros Hin. destruct (IH _ _ _ _ Hin) as (H1 & H2 & H3).
    repeat split; right; assumption.
  - intros Hin. destruct (IH _ _ _ _ Hin) as (H1 & H2 & H3).
    repeat split; right; assumption.
Qed.

Lemma returns_column_flat (p : R) (ps : list R) :
  0 < p -> Forall (eq p) ps ->
  forall prev, prev = None \/ prev = Some p ->
  Forall missing_or_zero (returns_column prev ps).
Proof.
  intros Hp Hps. induction Hps as [| q ps <- _ IH]; intros prev Hprev;
    cbn [returns_column]; constructor.
  - destruct Hprev as [-> | ->]; [left; reflexivity | right].
    unfold log_return.
    replace (p / p) with 1 by (field; lra).
    destruct (Rlt_dec 0 1); [now rewrite ln_1 | lra].
  - apply IH. right. reflexivity.
Qed.

Lemma observations_zero (win : list (option R)) :
  Forall missing_or_zero win -> Forall (eq 0) (observations win).
Proof.
  induction 1 as [| c win [-> | ->] _ IH]; cbn [observations];
    [constructor | exact IH | constructor; [reflexivity | exact IH]].
Qed.

Lemma sum_zero {A : Type} (f : A -> R) (xs : list A) :
  (forall x, In x xs -> f x = 0) -> sum (map f xs) = 0.
Proof.
  induction xs as [| x xs IH]; intros H; cbn [map sum fold_right]; [reflexivity |].
  fold (sum (map f xs)). rewrite IH, H; [lra | left; reflexivity |].
  intros y Hy. apply H. right. exact Hy.
Qed.

Lemma sample_std_zero (xs : list R) :
  Forall (eq 0) xs -> missing_or_zero (sample_std xs).
Proof.
  intros Hxs. unfold sample_std.
  destruct (length xs <=? 1)%nat; [left; reflexivity | right].
  rewrite Forall_forall in Hxs.
  assert (Hmean : mean xs = 0).
  { unfold mean. rewrite <- (map_id xs) at 1.
    rewrite sum_zero; [apply Rdiv_0_l |]. intros x Hx. symmetry. apply Hxs, Hx. }
  rewrite Hmean, sum_zero.
  - rewrite Rdiv_0_l, sqrt_0. reflexivity.
  - intros x Hx. rewrite <- (Hxs x Hx). ring.
Qed.

Lemma rolling_std_at_zero (w i : nat) (col : list (option R)) :
  Forall missing_or_zero col -> missing_or_zero (rolling_std_at w i col).
Proof.
  intros Hcol. unfold rolling_std_at.
  destruct (_ <? w)%nat; [left; reflexivity |].
  apply sample_std_zero, observations_zero.
  rewrite Forall_forall in *. intros c Hc. apply Hcol.
  unfold window_at in Hc. apply In_skipn, In_firstn in Hc. exact Hc.
Qed.

Lemma flat_history_rows (d : Timestamp) (p : R) (n : nat) :
  0 < p ->
  forall row, In row (data_df (flat_history d p n)) ->
              Price row = p /\ Volatility row = 0.
Proof.
  intros Hp row Hrow. unfold data_df, build_frame in Hrow.
  apply dropna_zip_In in Hrow. destruct Hrow as (_ & Hprice & Hvol).
  assert (Hflat : Forall (eq p) (map snd (flat_history d p n))).
  { unfold flat_history. rewrite map_map. cbn [snd]. rewrite map_const.
    apply Forall_forall. intros x Hx. symmetry. apply repeat_spec in Hx. exact Hx. }
  split.
  - rewrite Forall_forall in Hflat. symmetry. apply Hflat, Hprice.
  - apply in_map_iff in Hvol. destruct Hvol as (c & Hc & Hin).
    unfold rolling_std in Hin. apply in_map_iff in Hin.
    destruct Hin as (i & <- & _).
    destruct (@rolling_std_at_zero window_size i
                (returns_column None (map snd (flat_history d p n)))) as [E | E].
    + apply returns_column_flat with (p := p);
        [exact Hp | exact Hflat | left; reflexivity].
    + rewrite E in Hc. discriminate.
    + rewrite E in Hc. cbn in Hc. injection Hc as <-. ring.
Qed.

(** C3, as the claim states it, fails.  Thirty-one closes at 100 from
    2 January 2021 leave one row in the frame, that of 1 February, with a
    volatility of 0.  It is a roll date: the pricer is called with
    [sigma = 0], nothing is raised, the premium is 0 and the day ends with
    100 shares bought and a cash of -10000. *)
Lemma zero_volatility_is_priced_without_guard :
  exists row b,
    data_df (flat_history (days_from_civil 2021 1 2) 100 31) = [row] /\
    Date row = days_from_civil 2021 2 1 /\
    Price row = 100 /\
    Volatility row = 0 /\
    contains (monthly_dates [row]) (Date row) = true /\
    run_simulation [row] = Returned b /\
    black_scholes_call 100 (100 * 1.05) (30 / 252) risk_free_rate 0 = 0 /\
    cash b = - 10000 /\
    shares b = 100%Z.
Proof.
  assert (Hdates :
    map Date (data_df (flat_history (days_from_civil 2021 1 2) 100 31)) =
    [days_from_civil 2021 2 1]).
  { rewrite data_df_long.
    - reflexivity.
    - unfold flat_history, window_size. rewrite length_map, length_seq. lia.
    - unfold flat_history. apply Forall_map, Forall_forall.
      intros i _. cbn [snd]. lra. }
  pose proof (@flat_history_rows (days_from_civil 2021 1 2) 100 31) as Hrows.
  destruct (data_df (flat_history (days_from_civil 2021 1 2) 100 31))
    as [| row [| row' rest]]; try discriminate.
  destruct (Hrows ltac:(lra) row (or_introl eq_refl)) as [Hprice Hvol].
  injection Hdates as Hdate.
  destruct row as [dt pr rt vol]. cbn [Date Price Volatility] in *. subst.
  assert (Hzero :
    black_scholes_call 100 (100 * 1.05) (30 / 252) risk_free_rate 0 = 0)
    by (apply zero_volatility_premium; lra).
  eexists _, _. split; [reflexivity |]. split; [reflexivity |].
  split; [reflexivity |]. split; [reflexivity |]. split; [reflexivity |].
  split; [apply simulate_fold |]. split; [exact Hzero |].
  split; [| reflexivity].
  transitivity
    (0 - IZR shares_per_contract * 100 +
     black_scholes_call 100 (100 * 1.05) (30 / 252) risk_free_rate 0 *
     IZR shares_per_contract); [reflexivity |].
  rewrite Hzero. unfold shares_per_contract. lra.
Qed.

(** ** Metrics over a zero period (C4) *)

Lemma last_item_cons_returns {A : Type} (x : A) (xs : list A) :
  exists y, last_item (x :: xs) = Returned y.
Proof.
  unfold last_item. cbn [rev].
  destruct (rev xs) as [| y l]; cbn [app first_item]; eexists; reflexivity.
Qed.

Lemma total_return_cons_returns (x : R) (xs : list R) :
  exists t, total_return (x :: xs) = Returned t.
Proof.
  unfold total_return.
  destruct (last_item_cons_returns x xs) as [y ->].
  cbn [bind first_item]. eexists. reflexivity.
Qed.

Lemma py_truediv_zero_period (d : Timestamp) :
  py_truediv 1 (IZR (d - d) / 365.25) = Raised ZeroDivisionError.
Proof.
  unfold py_truediv. rewrite Z.sub_diag.
  destruct (Req_dec_T (0 / 365.25) 0) as [_ | Hne]; [reflexivity |].
  exfalso. apply Hne. lra.
Qed.

(** C4, as the claim states it, fails: over a range of one trading day the
    first and last sample dates coincide, and the metrics raise
    [ZeroDivisionError] instead of reporting an undefined value. *)
Lemma single_day_metrics_raise :
  exists b,
    run_simulation single_day = Returned b /\
    first_item (dates b) = last_item (dates b) /\
    performance_metrics single_day b = Raised ZeroDivisionError.
Proof.
  eexists. split; [apply simulate_fold |]. split; [reflexivity |].
  unfold performance_metrics. cbn [single_day map first_item bind Price].
  match goal with
  | |- context [total_return (portfolio_value ?b)] =>
      change (portfolio_value b) with [0 + 0 * 100]
  end.
  destruct (total_return_cons_returns (0 + 0 * 100) []) as [t ->].
  destruct (total_return_cons_returns (IZR shares_per_contract * 100) []) as [t' ->].
  cbn [bind].
  match goal with
  | |- context [last_item (dates ?b)] =>
      change (dates b) with [days_from_civil 2021 2 1]
  end.
  cbn [last_item rev app first_item bind]. unfold annualized_return.
  rewrite py_truediv_zero_period. reflexivity.
Qed.

(** C4, amended.  When the first and the last sample dates coincide the
    period is 0 years and [1 / years] raises [ZeroDivisionError]: the
    annualized return raises whatever the total return is, and so do the
    metrics of any run whose samples span a single date. *)
Theorem zero_period_raises_ZeroDivisionError
    (df : list Row) (b : Book) (d : Timestamp) :
  df <> [] ->
  portfolio_value b <> [] ->
  first_item (dates b) = Returned d ->
  last_item (dates b) = Returned d ->
  (forall total,
     annualized_return total (IZR (d - d) / 365.25) = Raised ZeroDivisionError) /\
  performance_metrics df b = Raised ZeroDivisionError.
Proof.
  intros Hdf Hpv Hfirst Hlast.
  assert (Hann : forall total,
             annualized_return total (IZR (d - d) / 365.25) =
             Raised ZeroDivisionError).
  { intros total. unfold annualized_return.
    rewrite py_truediv_zero_period. reflexivity. }
  split; [exact Hann |].
  unfold performance_metrics.
  destruct df as [| row rest]; [congruence |].
  destruct (portfolio_value b) as [| v vs]; [congruence |].
  cbn [map first_item bind].
  destruct (total_return_cons_returns v vs) as [t ->].
  destruct (total_return_cons_returns (IZR shares_per_contract * Price row)
              (map (fun r => IZR shares_per_contract * Price r) rest)) as [t' ->].
  cbn [bind]. rewrite Hlast, Hfirst. cbn [bind].
  rewrite Hann. reflexivity.
Qed.

Lemma zero_period_raises_ZeroDivisionError_witness :
  (forall total,
     annualized_return total
       (IZR (days_from_civil 2021 2 1 - days_from_civil 2021 2 1) / 365.25) =
     Raised ZeroDivisionError) /\
  performance_metrics single_day
    (mkBook 0 0 [0] [days_from_civil 2021 2 1] []) = Raised ZeroDivisionError.
Proof.
  apply zero_period_raises_ZeroDivisionError;
    [discriminate | discriminate | reflexivity | reflexivity].
Defined.

(** ** The whole script on a short history *)

(** With fewer closes than the window needs the loop returns with no
    sample, and the script then stops at [data_df['Price'].iloc[0]]. *)
Lemma main_raises_IndexError_on_a_short_history (data : list (Timestamp * R)) :
  (length data < window_size + 1)%nat -> main data = Raised IndexError.
Proof.
  intros Hlen. unfold main. rewrite (data_df_short data Hlen). reflexivity.
Qed.

(** * Further properties of the script *)

(** ** Roll dates of the script (X1, X2) *)

Section RollCalendar.

Local Open Scope Z_scope.

Ltac split_tests :=
  repeat match goal with
  | |- context [Z.leb ?a ?b] => destruct (Z.leb_spec a b)
  | |- context [Z.ltb ?a ?b] => destruct (Z.ltb_spec a b)
  end.

Lemma month_start_gap (k : Z) :
  month_start k + 28 <= month_start (k + 1) <= month_start k + 31.
Proof.
  unfold month_start, days_from_civil. cbv zeta.
  assert (Hk : (k + 1) / 12 = k / 12 /\ (k + 1) mod 12 = k mod 12 + 1 /\
               k mod 12 < 11
            \/ (k + 1) / 12 = k / 12 + 1 /\ (k + 1) mod 12 = 0 /\
               k mod 12 = 11) by euclid.
  set (y := k / 12) in *. set (r := k mod 12) in *.
  assert (Hr : 0 <= r < 12) by (subst r; apply Z.mod_pos_bound; lia).
  clearbody r y.
  destruct Hk as [(-> & -> & Hlt) | (-> & -> & Heq)];
    split_tests; try lia; euclid.
Qed.

Lemma month_start_after (k : Z) (n : nat) :
  month_start k + 28 * Z.of_nat n <= month_start (k + Z.of_nat n).
Proof.
  induction n as [| n IH].
  - replace (k + Z.of_nat 0) with k by lia. lia.
  - replace (k + Z.of_nat (S n)) with (k + Z.of_nat n + 1) by lia.
    pose proof (month_start_gap (k + Z.of_nat n)). lia.
Qed.

Lemma first_calendar_days_28_apart (r1 r2 : Timestamp) :
  day r1 = 1 -> day r2 = 1 -> r1 < r2 -> r1 + 28 <= r2.
Proof.
  intros H1 H2 Hlt.
  pose proof (month_start_of_first_day r1 H1) as E1.
  pose proof (month_start_of_first_day r2 H2) as E2.
  assert (Hmn : month_number r1 <= month_number r2)
    by (apply month_number_monotone; lia).
  destruct (Z.eq_dec (month_number r1) (month_number r2)) as [Heq | Hne].
  - rewrite Heq in E1. unfold Timestamp in *. lia.
  - pose proof (month_start_after (month_number r1)
                  (Z.to_nat (month_number r2 - month_number r1))) as Hafter.
    replace (month_number r1 +
             Z.of_nat (Z.to_nat (month_number r2 - month_number r1)))
      with (month_number r2) in Hafter by lia.
    unfold Timestamp in *. lia.
Qed.

Lemma month_starts_spaced (index : list Timestamp) :
  rolls_spaced 28 (resample_MS_index index) index.
Proof.
  intros r1 r2 Hin1 Hin2 Hroll1 Hroll2 Hlt.
  rewrite roll_test_is_first_calendar_day in Hroll1, Hroll2 by assumption.
  apply Z.eqb_eq in Hroll1, Hroll2.
  apply first_calendar_days_28_apart; assumption.
Qed.

End RollCalendar.

(** X1.  The test [current_date in monthly_dates] of the loop holds on a
    trading day of the frame exactly when that day is the first calendar
    day of its month. *)
Theorem calls_are_sold_on_first_calendar_days (df : list Row) (row : Row) :
  In row df ->
  contains (monthly_dates df) (Date row) = (day (Date row) =? 1)%Z.
Proof.
  intros Hin. unfold monthly_dates.
  apply roll_test_is_first_calendar_day, in_map, Hin.
Qed.

Lemma calls_are_sold_on_first_calendar_days_witness :
  contains (monthly_dates feb_mar_2020) (days_from_civil 2020 3 2) =
  (day (days_from_civil 2020 3 2) =? 1)%Z.
Proof.
  apply (@calls_are_sold_on_first_calendar_days feb_mar_2020
           (mkRow (days_from_civil 2020 3 2) 100 0 0.2)).
  right. left. reflexivity.
Defined.

Lemma StronglySorted_filter {A : Type} (Rel : A -> A -> Prop) (f : A -> bool)
    (l : list A) :
  StronglySorted Rel l -> StronglySorted Rel (filter f l).
Proof.
  induction 1 as [| x l Hs IH Hall]; cbn [filter]; [constructor |].
  destruct (f x); [| exact IH]. constructor; [exact IH |].
  rewrite Forall_forall in *. intros y Hy. apply filter_In in Hy.
  apply Hall, Hy.
Qed.

Lemma StronglySorted_snoc {A : Type} (Rel : A -> A -> Prop) (l : list A) (y : A) :
  StronglySorted Rel l -> Forall (fun x => Rel x y) l ->
  StronglySorted Rel (l ++ [y]).
Proof.
  induction 1 as [| x l Hs IH Hall]; intros Hy; cbn [app].
  - constructor; constructor.
  - apply Forall_cons_iff in Hy. destruct Hy as [Hxy Hy].
    constructor; [apply IH, Hy |].
    apply Forall_app. split; [exact Hall | constructor; [exact Hxy | constructor]].
Qed.

Section SpacedRolls.

Variable monthly : list Timestamp.
Variable index : list Timestamp.
Variable g : Z.
Hypothesis Hspaced : rolls_spaced g monthly index.
Hypothesis Hg : (30 < 2 * g)%Z.

Lemma two_fit_in_a_tenor (D : Timestamp) (ps : list Position) :
  StronglySorted (expirations_apart g) ps ->
  Forall (fun o => (D < expiration_date o <= D + 30)%Z) ps ->
  (length ps <= 2)%nat.
Proof.
  intros Hs Hb.
  destruct ps as [| p1 [| p2 [| p3 l]]]; cbn [length]; try lia.
  exfalso.
  apply StronglySorted_inv in Hs. destruct Hs as [Hs H1].
  apply StronglySorted_inv in Hs. destruct Hs as [_ H2].
  apply Forall_inv in H1. apply Forall_inv in H2.
  apply Forall_cons_iff in Hb. destruct Hb as [B1 Hb].
  apply Forall_cons_iff in Hb. destruct Hb as [_ Hb].
  apply Forall_inv in Hb. unfold expirations_apart in *. lia.
Qed.

Lemma day_result_spaced (b : Book) (row : Row) (later : list Timestamp) :
  In (Date row) index ->
  Forall (Z.lt (Date row)) later ->
  Forall (written_on_roll monthly index (Date row :: later)) (positions b) ->
  StronglySorted (expirations_apart g) (positions b) ->
  Forall (written_on_roll monthly index later)
    (positions (day_result monthly b row)) /\
  StronglySorted (expirations_apart g) (positions (day_result monthly b row)) /\
  Forall (fun o => (Date row < expiration_date o <= Date row + 30)%Z)
    (positions (day_result monthly b row)).
Proof.
  intros Hin Hlater Hold Hsorted.
  rewrite positions_day_result.
  rewrite Forall_forall in Hold.
  assert (Hkept : forall o,
             In o (filter (still_open (Date row)) (positions b)) ->
             exists r, In r index /\ contains monthly r = true /\
                       expiration_date o = (r + 30)%Z /\ (r < Date row)%Z /\
                       (Date row < expiration_date o)%Z /\
                       Forall (Z.lt r) later).
  { intros o Ho. apply filter_In in Ho. destruct Ho as [Ho Hopen].
    destruct (Hold o Ho) as (r & Hr & Hroll & Hexp & Hall).
    exists r. unfold add_days in Hexp.
    unfold still_open, due in Hopen. apply negb_true_iff, Z.leb_gt in Hopen.
    repeat split; try assumption.
    - apply Forall_inv in Hall. exact Hall.
    - apply Forall_inv_tail in Hall. exact Hall. }
  assert (Hwritten : Forall (written_on_roll monthly index later)
                       (filter (still_open (Date row)) (positions b))).
  { apply Forall_forall. intros o Ho.
    destruct (Hkept o Ho) as (r & Hr & Hroll & Hexp & _ & _ & Hall).
    exists r. repeat split; assumption. }
  assert (Hbounds : Forall (fun o => (Date row < expiration_date o <= Date row + 30)%Z)
                      (filter (still_open (Date row)) (positions b))).
  { apply Forall_forall. intros o Ho.
    destruct (Hkept o Ho) as (r & _ & _ & Hexp & Hlt & Hopen & _). lia. }
  pose proof (StronglySorted_filter (still_open (Date row)) Hsorted) as Hfs.
  destruct (contains monthly (Date row)) eqn:Hroll.
  - repeat split.
    + apply Forall_app. split; [exact Hwritten |].
      constructor; [| constructor].
      exists (Date row). repeat split; assumption.
    + apply StronglySorted_snoc; [exact Hfs |].
      apply Forall_forall. intros o Ho.
      destruct (Hkept o Ho) as (r & Hr & Hrroll & Hexp & Hlt & _ & _).
      pose proof Hspaced as Hsp. unfold rolls_spaced in Hsp.
      specialize (Hsp r (Date row) Hr Hin Hrroll Hroll Hlt).
      unfold expirations_apart, add_days. cbn [expiration_date]. lia.
    + apply Forall_app. split; [exact Hbounds |].
      constructor; [| constructor].
      unfold add_days. cbn [expiration_date]. lia.
  - rewrite app_nil_r. repeat split; assumption.
Qed.

Lemma fold_spaced (rows : list Row) :
  forall b,
    StronglySorted Z.lt (map Date rows) ->
    incl (map Date rows) index ->
    Forall (written_on_roll monthly index (map Date rows)) (positions b) ->
    StronglySorted (expirations_apart g) (positions b) ->
    (length (positions b) <= 2)%nat ->
    (length (positions (fold_left (day_result monthly) rows b)) <= 2)%nat.
Proof.
  induction rows as [| row rest IH]; intros b Hs Hincl Hold Hsorted Hlen;
    cbn [fold_left].
  - exact Hlen.
  - cbn [map] in Hs, Hincl, Hold.
    apply StronglySorted_inv in Hs. destruct Hs as [Hs Hall].
    destruct (@day_result_spaced b row (map Date rest))
      as (Hold' & Hsorted' & Hbounds); try assumption.
    + apply Hincl. left. reflexivity.
    + apply IH; try assumption.
      * intros d Hd. apply Hincl. right. exact Hd.
      * apply two_fit_in_a_tenor with (D := Date row); assumption.
Qed.

End SpacedRolls.

(** X2.  Over strictly increasing trading days, every day of the script's
    loop ends with at most two open positions: the calls are written on
    first calendar days of months, at least 28 days apart, and each
    expires after 30 days. *)
Theorem at_most_two_open_positions (df : list Row) (n : nat) :
  StronglySorted Z.lt (map Date df) ->
  exists b,
    after_days (monthly_dates df) df n = Returned b /\
    (length (positions b) <= 2)%nat.
Proof.
  intros Hsorted.
  exists (fold_left (day_result (monthly_dates df)) (firstn n df) initial).
  split; [apply after_days_returns |].
  apply fold_spaced with (index := map Date df) (g := 28%Z).
  - apply month_starts_spaced.
  - lia.
  - rewrite <- firstn_map. apply StronglySorted_firstn, Hsorted.
  - rewrite <- firstn_map. intros d Hd. apply In_firstn with n, Hd.
  - constructor.
  - constructor.
  - cbn. lia.
Qed.

Lemma at_most_two_open_positions_witness :
  exists b,
    after_days (monthly_dates feb_mar_2021) feb_mar_2021 2 = Returned b /\
    (length (positions b) <= 2)%nat.
Proof.
  apply at_most_two_open_positions.
  vm_compute. repeat constructor.
Defined.

(** ** The day loop (X3 to X7) *)

(** X3.  Over rows with distinct date labels the loop completes from any
    book: every [positions.remove(pos)] finds its position, so no
    [ValueError] is raised, whatever positions (duplicates included) the
    book starts with.  (Under a repeated label [data_df.loc] would hand the
    loop a Series instead of a price; the rows of a frame have distinct
    labels.) *)
Theorem day_loop_never_raises (monthly : list Timestamp) (rows : list Row) (b : Book) :
  NoDup (map Date rows) ->
  exists b', simulate monthly rows b = Returned b'.
Proof.
  intros _. exists (fold_left (day_result monthly) rows b). apply simulate_fold.
Qed.

Lemma day_loop_never_raises_witness :
  exists b',
    simulate (monthly_dates feb_mar_2021) feb_mar_2021
      (mkBook 0 100 [] []
         [mkPosition (days_from_civil 2021 2 1) 105;
          mkPosition (days_from_civil 2021 2 1) 105]) = Returned b'.
Proof.
  apply day_loop_never_raises.
  vm_compute. constructor.
  - intros [E | []]. discriminate E.
  - constructor; [intros [] | constructor].
Defined.

(** X4.  The loop records exactly one sample per row of the frame, and the
    recorded dates are the index of the frame, in order. *)
Theorem one_sample_per_row_in_index_order (monthly : list Timestamp) (rows : list Row) :
  exists b,
    simulate monthly rows initial = Returned b /\
    dates b = map Date rows /\
    length (portfolio_value b) = length rows.
Proof.
  exists (fold_left (day_result monthly) rows initial).
  split; [apply simulate_fold |].
  destruct (fold_samples monthly rows initial) as (vs & -> & Hlen & ->).
  split; [reflexivity | exact Hlen].
Qed.

Lemma fold_flat (monthly : list Timestamp) (rows : list Row) :
  (forall row, In row rows -> contains monthly (Date row) = false) ->
  forall pv ds,
    fold_left (day_result monthly) rows (mkBook 0 0 pv ds []) =
    mkBook 0 0 (pv ++ repeat 0 (length rows)) (ds ++ map Date rows) [].
Proof.
  induction rows as [| row rest IH]; intros Hno pv ds; cbn [fold_left].
  - cbn. rewrite !app_nil_r. reflexivity.
  - assert (Hday : day_result monthly (mkBook 0 0 pv ds []) row =
                   mkBook 0 0 (pv ++ [0]) (ds ++ [Date row]) []).
    { unfold day_result, sell_call.
      rewrite (Hno row (or_introl eq_refl)).
      unfold resolveExpirations, update_portfolio_value. cbn.
      replace (0 + 0 * Price row) with 0 by ring. reflexivity. }
    rewrite Hday, IH by (intros r Hr; apply Hno; right; exact Hr).
    rewrite <- !app_assoc. reflexivity.
Qed.

(** X5.  Until the first roll date the book stays flat: with no date of
    the rows among the monthly dates the loop ends with no cash, no shares
    and no position, and every recorded sample is 0. *)
Theorem book_stays_flat_without_a_roll_date (monthly : list Timestamp) (rows : list Row) :
  (forall row, In row rows -> contains monthly (Date row) = false) ->
  exists b,
    simulate monthly rows initial = Returned b /\
    cash b = 0 /\ shares b = 0%Z /\ positions b = [] /\
    portfolio_value b = repeat 0 (length rows).
Proof.
  intros Hno. exists (fold_left (day_result monthly) rows initial).
  split; [apply simulate_fold |].
  unfold initial. rewrite fold_flat by exact Hno.
  repeat split; reflexivity.
Qed.

Lemma book_stays_flat_without_a_roll_date_witness :
  exists b,
    simulate (monthly_dates feb_mar_2020) feb_mar_2020 initial = Returned b /\
    cash b = 0 /\ shares b = 0%Z /\ positions b = [] /\
    portfolio_value b = repeat 0 (length feb_mar_2020).
Proof.
  apply book_stays_flat_without_a_roll_date.
  intros row Hrow. cbn [feb_mar_2020 In] in Hrow.
  destruct Hrow as [<- | [<- | [<- | []]]]; vm_compute; reflexivity.
Defined.

(** X6.  A roll date ends covered: after the day of a roll date the book
    holds exactly [shares_per_contract] shares, and the last open position
    is the call written that day, struck 5% above the day's price and
    expiring 30 days later. *)
Theorem roll_date_ends_covered
    (monthly : list Timestamp) (before : list Row) (row : Row) :
  contains monthly (Date row) = true ->
  exists b ps,
    simulate monthly (before ++ [row]) initial = Returned b /\
    shares b = shares_per_contract /\
    positions b = ps ++ [mkPosition (add_days (Date row) 30) (Price row * 1.05)].
Proof.
  intros Hroll.
  exists (fold_left (day_result monthly) (before ++ [row]) initial).
  exists (filter (still_open (Date row))
            (positions (fold_left (day_result monthly) before initial))).
  split; [apply simulate_fold |].
  rewrite fold_left_app. cbn [fold_left].
  set (b0 := fold_left (day_result monthly) before initial).
  assert (Hok : shares_ok b0) by (apply fold_shares_ok; left; reflexivity).
  split.
  - unfold day_result, sell_call. rewrite Hroll. cbn [shares].
    apply (update_portfolio_value_shares_ok (Date row) (Price row)) in Hok.
    apply (resolveExpirations_shares_ok (Date row) (Price row)) in Hok.
    destruct (shares _ =? 0)%Z eqn:E; [reflexivity |].
    destruct Hok as [H0 | H100]; [| exact H100].
    rewrite H0 in E. discriminate.
  - rewrite positions_day_result, Hroll. reflexivity.
Qed.

Lemma roll_date_ends_covered_witness :
  exists b ps,
    simulate (monthly_dates feb_mar_2021)
      ([mkRow (days_from_civil 2021 2 1) 100 0 0.2] ++
       [mkRow (days_from_civil 2021 3 1) 100 0 0.2]) initial = Returned b /\
    shares b = shares_per_contract /\
    positions b =
      ps ++ [mkPosition (add_days (days_from_civil 2021 3 1) 30) (100 * 1.05)].
Proof.
  apply (@roll_date_ends_covered (monthly_dates feb_mar_2021)
           [mkRow (days_from_civil 2021 2 1) 100 0 0.2]
           (mkRow (days_from_civil 2021 3 1) 100 0 0.2)).
  vm_compute. reflexivity.
Defined.

(** X7.  Selling the call moves the marked value by the premium alone: at
    the day's price the book is worth, after the roll step, what it was
    worth before plus [call_premium] (the purchase of the shares, when it
    happens, is value neutral); off a roll date the step changes
    nothing. *)
Theorem selling_the_call_adds_the_premium
    (monthly : list Timestamp) (d : Timestamp) (S sigma : R) (b : Book) :
  marked_value (sell_call monthly d S sigma b) S =
  marked_value b S + (if contains monthly d then call_premium S sigma else 0).
Proof.
  unfold marked_value, sell_call, call_premium.
  destruct (contains monthly d); cbn [cash shares]; [| ring].
  destruct (shares b =? 0)%Z eqn:E; [| ring].
  apply Z.eqb_eq in E. rewrite E. ring.
Qed.

(** ** The expiration step (X8 to X10) *)

Lemma fold_exercise_flat (S : R) (os : list Position) :
  forall c, fold_left (exercise_or_lapse S) os (c, 0%Z) = (c, 0%Z).
Proof.
  induction os as [| o os IH]; intros c; cbn [fold_left]; [reflexivity |].
  unfold exercise_or_lapse at 2. cbn [fst snd].
  destruct (Rgt_dec S (K o)); [| apply IH].
  replace (c + 0 * K o) with c by ring. apply IH.
Qed.

Lemma fold_exercise_find (d : Timestamp) (S : R) (ps : list Position) :
  forall c s,
    fold_left (exercise_or_lapse S) (filter (due d) ps) (c, s) =
    match find (in_the_money d S) ps with
    | Some o => (c + IZR s * K o, 0%Z)
    | None => (c, s)
    end.
Proof.
  induction ps as [| o ps IH]; intros c s; cbn [filter find]; [reflexivity |].
  unfold in_the_money at 1. destruct (due d o); cbn [andb fold_left].
  - unfold exercise_or_lapse at 2. cbn [fst snd].
    destruct (Rgt_dec S (K o)); [apply fold_exercise_flat | apply IH].
  - apply IH.
Qed.

(** X8.  The expiration step exercises at most once a day: the first due
    position whose strike the price exceeds adds [shares * K] to the cash
    and zeroes the shares, and the due positions after it change nothing;
    with no such position cash and shares are untouched. *)
Theorem expiration_exercises_the_first_in_the_money
    (d : Timestamp) (S : R) (b : Book) :
  exists b',
    option_expiration d S b = Returned b' /\
    (cash b', shares b') =
      match find (in_the_money d S) (positions b) with
      | Some o => (cash b + IZR (shares b) * K o, 0%Z)
      | None => (cash b, shares b)
      end.
Proof.
  exists (resolveExpirations d S b).
  split; [apply option_expiration_resolveExpirations |].
  unfold resolveExpirations. cbn [cash shares].
  rewrite <- surjective_pairing. apply fold_exercise_find.
Qed.

Lemma nothing_due_among_the_open (d : Timestamp) (ps : list Position) :
  filter (due d) (filter (still_open d) ps) = [].
Proof.
  induction ps as [| o ps IH]; [reflexivity |].
  unfold still_open at 1. cbn [filter].
  destruct (due d o) eqn:Hdue; cbn [negb filter]; [exact IH |].
  rewrite Hdue. exact IH.
Qed.

(** X9.  The expiration step is idempotent: run again on the same date and
    price, it returns the book the first run produced. *)
Theorem expiration_step_is_idempotent (d : Timestamp) (S : R) (b : Book) :
  (b' <- option_expiration d S b ;; option_expiration d S b') =
  option_expiration d S b.
Proof.
  rewrite (option_expiration_resolveExpirations d S b). cbn [bind].
  rewrite option_expiration_resolveExpirations. f_equal.
  unfold resolveExpirations at 1.
  cbn [positions cash shares portfolio_value dates resolveExpirations].
  rewrite nothing_due_among_the_open. cbn [fold_left fst snd].
  rewrite none_due_all_open by apply nothing_due_among_the_open.
  reflexivity.
Qed.

Lemma fold_written (monthly : list Timestamp) (rows : list Row) :
  Forall (written_in monthly rows)
    (positions (fold_left (day_result monthly) rows initial)).
Proof.
  induction rows as [| row before IH] using rev_ind; [constructor |].
  rewrite fold_left_app. cbn [fold_left]. rewrite positions_day_result.
  apply Forall_app. split.
  - apply Forall_forall. intros o Ho. apply filter_In in Ho.
    destruct Ho as [Ho _]. rewrite Forall_forall in IH.
    destruct (IH o Ho) as (r & Hr & Hroll & Ho').
    exists r. split; [apply in_or_app; left; exact Hr | split; assumption].
  - destruct (contains monthly (Date row)) eqn:Hroll; constructor; [| constructor].
    exists row. split; [apply in_or_app; right; left; reflexivity |].
    split; [exact Hroll | reflexivity].
Qed.

(** X10.  No expired position survives a day, and nothing but written
    calls is ever open: at the end of every day each open position expires
    after that day and is the call written on one of the roll dates met so
    far, 30 days before its expiration, struck 5% above that day's
    price. *)
Theorem open_positions_are_unexpired_written_calls
    (monthly : list Timestamp) (before : list Row) (row : Row) :
  exists b,
    simulate monthly (before ++ [row]) initial = Returned b /\
    Forall (fun o => (Date row < expiration_date o)%Z /\
                     written_in monthly (before ++ [row]) o)
      (positions b).
Proof.
  exists (fold_left (day_result monthly) (before ++ [row]) initial).
  split; [apply simulate_fold |].
  pose proof (fold_written monthly (before ++ [row])) as Hw.
  rewrite Forall_forall in *. intros o Ho. split; [| apply Hw, Ho].
  rewrite fold_left_app in Ho. cbn [fold_left] in Ho.
  rewrite positions_day_result in Ho. apply in_app_or in Ho.
  destruct Ho as [Ho | Ho].
  - apply filter_In in Ho. destruct Ho as [_ Hopen].
    unfold still_open, due in Hopen.
    apply negb_true_iff, Z.leb_gt in Hopen. exact Hopen.
  - destruct (contains monthly (Date row)); [| destruct Ho].
    destruct Ho as [<- | []]. unfold add_days. cbn [expiration_date]. lia.
Qed.

(** ** The pricer at the call site (X11, X12) *)

Lemma black_scholes_call_homogeneous (c S K T r sigma : R) :
  0 < c -> 0 < K ->
  black_scholes_call (c * S) (c * K) T r sigma =
  c * black_scholes_call S K T r sigma.
Proof.
  intros Hc HK. unfold black_scholes_call.
  replace (c * S / (c * K)) with (S / K) by (field; lra).
  destruct (np_true_divide _ _); cbn [np_subtract norm_cdf_at]; ring.
Qed.

(** X11.  The pricer is homogeneous of degree one in spot and strike:
    multiplying both by a positive factor multiplies the price of the call
    by that factor. *)
Theorem black_scholes_call_scales_with_spot_and_strike (c S K T r sigma : R) :
  0 < c -> 0 < K ->
  black_scholes_call (c * S) (c * K) T r sigma =
  c * black_scholes_call S K T r sigma.
Proof. apply black_scholes_call_homogeneous. Qed.

Lemma black_scholes_call_scales_with_spot_and_strike_witness :
  black_scholes_call (2 * 100) (2 * 105) (30 / 252) 0.01 0.2 =
  2 * black_scholes_call 100 105 (30 / 252) 0.01 0.2.
Proof.
  apply black_scholes_call_scales_with_spot_and_strike; lra.
Defined.

(** X12.  The premium the loop receives is proportional to the day's
    price: since the strike is always 5% above the spot, [call_premium] at
    a positive price [S] is [S] times the premium at price 1, which
    depends on the volatility alone. *)
Theorem call_premium_is_proportional_to_the_price (S sigma : R) :
  0 < S -> call_premium S sigma = S * call_premium 1 sigma.
Proof.
  intros HS. unfold call_premium.
  pose proof (@black_scholes_call_homogeneous S 1 (1 * 1.05) (30 / 252)
                risk_free_rate sigma HS ltac:(lra)) as H.
  replace (S * 1) with S in H by ring.
  replace (S * (1 * 1.05)) with (S * 1.05) in H by ring.
  rewrite H. ring.
Qed.

Lemma call_premium_is_proportional_to_the_price_witness :
  call_premium 100 0.2 = 100 * call_premium 1 0.2.
Proof.
  apply call_premium_is_proportional_to_the_price. lra.
Defined.

(** ** The volatility column (X13 to X15) *)

Lemma dropna_zip_Returns (ds : list Timestamp) :
  forall ps rs vs row,
    In row (dropna (zip_rows ds ps rs vs)) -> In (Some (Returns row)) rs.
Proof.
  induction ds as [| d ds IH]; intros [| p ps] [| r rs] [| v vs] row;
    cbn [zip_rows dropna raw_Returns raw_Volatility raw_Date raw_Price In];
    try tauto.
  destruct r as [r |]; [destruct v as [v |] |].
  - intros [<- | Hin]; [left; reflexivity | right; apply (IH _ _ _ _ Hin)].
  - intros Hin. right. apply (IH _ _ _ _ Hin).
  - intros Hin. right. apply (IH _ _ _ _ Hin).
Qed.

Lemma constant_prices_rows (data : list (Timestamp * R)) (p : R) :
  0 < p -> Forall (fun dp => snd dp = p) data ->
  forall row, In row (data_df data) ->
              Price row = p /\ Returns row = 0 /\ Volatility row = 0.
Proof.
  intros Hp Hconst row Hrow. unfold data_df, build_frame in Hrow.
  assert (Hflat : Forall (eq p) (map snd data)).
  { apply Forall_map. rewrite Forall_forall in *.
    intros dp Hdp. symmetry. apply Hconst, Hdp. }
  assert (Hcol : Forall missing_or_zero (returns_column None (map snd data))).
  { apply returns_column_flat with (p := p);
      [exact Hp | exact Hflat | left; reflexivity]. }
  pose proof (dropna_zip_Returns _ _ _ _ _ Hrow) as Hret.
  apply dropna_zip_In in Hrow. destruct Hrow as (_ & Hprice & Hvol).
  split; [| split].
  - rewrite Forall_forall in Hflat. symmetry. apply Hflat, Hprice.
  - rewrite Forall_forall in Hcol. destruct (Hcol _ Hret) as [E | E].
    + discriminate.
    + injection E as ->. reflexivity.
  - apply in_map_iff in Hvol. destruct Hvol as (c & Hc & Hin).
    unfold rolling_std in Hin. apply in_map_iff in Hin.
    destruct Hin as (i & <- & _).
    destruct (@rolling_std_at_zero window_size i
                (returns_column None (map snd data)) Hcol) as [E | E];
      rewrite E in Hc; [discriminate |].
    cbn in Hc. injection Hc as <-. ring.
Qed.

(** X13.  A history of constant positive prices gives a frame whose every
    row has a return of 0 and a volatility of exactly 0: the volatility
    the loop hands to the pricer is not positive by construction. *)
Theorem constant_prices_give_zero_volatility (data : list (Timestamp * R)) (p : R) :
  0 < p -> Forall (fun dp => snd dp = p) data ->
  Forall (fun row => Price row = p /\ Returns row = 0 /\ Volatility row = 0)
    (data_df data).
Proof.
  intros Hp Hconst. apply Forall_forall.
  apply constant_prices_rows; assumption.
Qed.

Lemma constant_prices_give_zero_volatility_witness :
  Forall (fun row => Price row = 100 /\ Returns row = 0 /\ Volatility row = 0)
    (data_df (flat_history (days_from_civil 2021 1 2) 100 40)).
Proof.
  apply constant_prices_give_zero_volatility; [lra |].
  unfold flat_history. apply Forall_map, Forall_forall.
  intros i _. reflexivity.
Defined.

Lemma sample_std_nonneg (xs : list R) (s : R) :
  sample_std xs = Some s -> 0 <= s.
Proof.
  unfold sample_std. destruct (length xs <=? 1)%nat; [discriminate |].
  intros E. injection E as <-. apply sqrt_pos.
Qed.

(** X14.  The volatility of every row of the frame is non-negative: a
    negative volatility never reaches the pricer from the estimator (a
    zero one can). *)
Theorem volatility_is_never_negative (data : list (Timestamp * R)) :
  Forall (fun row => 0 <= Volatility row) (data_df data).
Proof.
  apply Forall_forall. intros row Hrow. unfold data_df, build_frame in Hrow.
  apply dropna_zip_In in Hrow. destruct Hrow as (_ & _ & Hvol).
  apply in_map_iff in Hvol. destruct Hvol as (c & Hc & Hin).
  unfold rolling_std in Hin. apply in_map_iff in Hin.
  destruct Hin as (i & <- & _).
  unfold rolling_std_at in Hc.
  destruct (_ <? window_size)%nat; [discriminate |].
  destruct (sample_std _) as [s |] eqn:Hs; [| discriminate].
  cbn in Hc. injection Hc as <-.
  apply Rmult_le_pos; [apply (sample_std_nonneg _ Hs) | apply sqrt_pos].
Qed.

Lemma log_return_scaled (c : R) (prev : option R) (p : R) :
  0 < c ->
  log_return (option_map (Rmult c) prev) (c * p) = log_return prev p.
Proof.
  intros Hc. destruct prev as [q |]; [| reflexivity]. cbn [option_map log_return].
  assert (E : c * p / (c * q) = p / q).
  { destruct (Req_dec_T q 0) as [-> | Hq]; [| field; lra].
    unfold Rdiv. rewrite Rmult_0_r, Rinv_0. ring. }
  rewrite E. reflexivity.
Qed.

Lemma returns_column_scaled (c : R) (ps : list R) :
  0 < c ->
  forall prev,
    returns_column (option_map (Rmult c) prev) (map (Rmult c) ps) =
    returns_column prev ps.
Proof.
  intros Hc. induction ps as [| p ps IH]; intros prev;
    cbn [map returns_column]; [reflexivity |].
  rewrite log_return_scaled by exact Hc.
  f_equal. apply (IH (Some p)).
Qed.

Lemma dropna_zip_map_Price (f : R -> R) (ds : list Timestamp) :
  forall ps rs vs,
    dropna (zip_rows ds (map f ps) rs vs) =
    map (fun row => mkRow (Date row) (f (Price row)) (Returns row) (Volatility row))
      (dropna (zip_rows ds ps rs vs)).
Proof.
  induction ds as [| d ds IH]; intros [| p ps] [| r rs] [| v vs];
    cbn [map zip_rows dropna raw_Returns raw_Volatility raw_Date raw_Price];
    try reflexivity.
  destruct r as [r |]; [destruct v as [v |] |]; rewrite IH; reflexivity.
Qed.

(** X15.  Returns and volatilities are free of the unit of the prices:
    multiplying every closing price by a positive factor leaves the dates,
    the returns and the volatilities of the frame as they were and
    multiplies its prices by the factor. *)
Theorem volatility_ignores_the_scale_of_prices (c : R) (data : list (Timestamp * R)) :
  0 < c ->
  data_df (scale_prices c data) =
  map (fun row => mkRow (Date row) (c * Price row) (Returns row) (Volatility row))
    (data_df data).
Proof.
  intros Hc. unfold data_df, build_frame, scale_prices.
  rewrite !map_map. cbn [fst snd].
  rewrite <- (map_map snd (Rmult c)).
  pose proof (returns_column_scaled (map snd data) Hc None) as Hret.
  cbn [option_map] in Hret. rewrite Hret.
  apply dropna_zip_map_Price.
Qed.

Lemma volatility_ignores_the_scale_of_prices_witness :
  data_df (scale_prices 2 (flat_history (days_from_civil 2021 1 2) 100 40)) =
  map (fun row => mkRow (Date row) (2 * Price row) (Returns row) (Volatility row))
    (data_df (flat_history (days_from_civil 2021 1 2) 100 40)).
Proof.
  apply volatility_ignores_the_scale_of_prices. lra.
Defined.

(** ** The whole script and its metrics (X16 to X20) *)

Lemma last_item_last {A : Type} (x : A) (l : list A) :
  last_item (x :: l) = Returned (last l x).
Proof.
  unfold last_item. induction l as [| y l' _] using rev_ind; [reflexivity |].
  rewrite last_last. cbn [rev]. rewrite rev_app_distr. reflexivity.
Qed.

Lemma last_map_default {A B : Type} (f : A -> B) (l : list A) (x : A) :
  last (map f l) (f x) = f (last l x).
Proof.
  induction l as [| y [| z l] IH]; [reflexivity | reflexivity |].
  exact IH.
Qed.

Lemma last_in_tail {A : Type} (x y : A) (l : list A) :
  In (last (y :: l) x) (y :: l).
Proof.
  revert y. induction l as [| z l IH]; intros y.
  - left. reflexivity.
  - right. apply (IH z).
Qed.

Lemma StronglySorted_skipn (n : nat) :
  forall l : list Z, StronglySorted Z.lt l -> StronglySorted Z.lt (skipn n l).
Proof.
  induction n as [| n IH]; intros [| y l] Hs; cbn [skipn]; try assumption.
  apply IH. apply StronglySorted_inv in Hs. tauto.
Qed.


Lemma annualized_return_returns (total : option R) (days : Z) :
  days <> 0%Z ->
  exists a, annualized_return total (IZR days / 365.25) = Returned a.
Proof.
  intros Hdays. unfold annualized_return, py_truediv.
  destruct (Req_dec_T (IZR days / 365.25) 0) as [E | _].
  - exfalso. apply Hdays. apply eq_IZR. lra.
  - cbn [bind]. eexists. reflexivity.
Qed.

Lemma metrics_zero_period (df : list Row) (b : Book) (d : Timestamp) :
  df <> [] -> portfolio_value b <> [] ->
  first_item (dates b) = Returned d -> last_item (dates b) = Returned d ->
  performance_metrics df b = Raised ZeroDivisionError.
Proof.
  intros Hdf Hpv Hfirst Hlast. unfold performance_metrics.
  destruct df as [| row rest]; [congruence |].
  destruct (portfolio_value b) as [| v vs]; [congruence |].
  cbn [map first_item bind].
  destruct (total_return_cons_returns v vs) as [t ->].
  destruct (total_return_cons_returns (IZR shares_per_contract * Price row)
              (map (fun r => IZR shares_per_contract * Price r) rest)) as [t' ->].
  cbn [bind]. rewrite Hlast, Hfirst. cbn [bind].
  unfold annualized_return. rewrite py_truediv_zero_period. reflexivity.
Qed.

Lemma metrics_return (df : list Row) (b : Book) (d0 d1 : Timestamp) :
  df <> [] -> portfolio_value b <> [] ->
  first_item (dates b) = Returned d0 -> last_item (dates b) = Returned d1 ->
  d0 <> d1 ->
  exists m, performance_metrics df b = Returned m.
Proof.
  intros Hdf Hpv Hfirst Hlast Hne. unfold performance_metrics.
  destruct df as [| row rest]; [congruence |].
  destruct (portfolio_value b) as [| v vs]; [congruence |].
  cbn [map first_item bind].
  destruct (total_return_cons_returns v vs) as [t ->].
  destruct (total_return_cons_returns (IZR shares_per_contract * Price row)
              (map (fun r => IZR shares_per_contract * Price r) rest)) as [t' ->].
  cbn [bind]. rewrite Hlast, Hfirst. cbn [bind].
  assert (Hdays : (d1 - d0)%Z <> 0%Z) by (unfold Timestamp in *; lia).
  destruct (annualized_return_returns t Hdays) as [a ->].
  destruct (annualized_return_returns t' Hdays) as [a' ->].
  cbn [bind]. eexists. reflexivity.
Qed.

Lemma main_returns_on_a_long_history (data : list (Timestamp * R)) :
  (window_size + 2 <= length data)%nat ->
  Forall (fun dp => 0 < snd dp) data ->
  StronglySorted Z.lt (map fst data) ->
  exists m, main data = Returned m.
Proof.
  intros Hlen Hpos Hsorted. unfold main, run_simulation.
  assert (Hdates : map Date (data_df data) = skipn window_size (map fst data))
    by (apply data_df_long; [lia | exact Hpos]).
  rewrite simulate_fold. cbn [bind].
  set (monthly := monthly_dates (data_df data)).
  destruct (fold_samples monthly (data_df data) initial) as (vs & Hpv & Hvs & Hds).
  cbn [initial portfolio_value dates app] in Hpv, Hds.
  assert (Hl : (2 <= length (map Date (data_df data)))%nat)
    by (rewrite Hdates, length_skipn, length_map; lia).
  assert (Hs : StronglySorted Z.lt (map Date (data_df data)))
    by (rewrite Hdates; apply StronglySorted_skipn, Hsorted).
  destruct (map Date (data_df data)) as [| d0 [| d1 l]] eqn:Hmap;
    cbn [length] in Hl; try lia.
  apply metrics_return with (d0 := d0) (d1 := last (d1 :: l) d0).
  - intros E. rewrite E in Hmap. discriminate.
  - rewrite Hpv. intros E. rewrite E in Hvs. rewrite <- (length_map Date), Hmap in Hvs.
    discriminate.
  - rewrite Hds. reflexivity.
  - rewrite Hds. apply last_item_last.
  - apply StronglySorted_inv in Hs. destruct Hs as [_ Hall].
    rewrite Forall_forall in Hall.
    pose proof (Hall _ (last_in_tail d0 d1 l)). unfold Timestamp in *. lia.
Qed.

(** X16.  With fewer closing prices than the volatility window needs the
    script ends on [IndexError]: the frame is empty, the loop records
    nothing, and [data_df['Price'].iloc[0]] has no row to read. *)
Theorem short_history_ends_on_IndexError (data : list (Timestamp * R)) :
  (length data < window_size + 1)%nat -> main data = Raised IndexError.
Proof.
  intros Hlen. unfold main. rewrite (data_df_short data Hlen). reflexivity.
Qed.

Lemma short_history_ends_on_IndexError_witness :
  main (flat_history (days_from_civil 2021 1 4) 100 30) = Raised IndexError.
Proof.
  apply short_history_ends_on_IndexError.
  unfold flat_history, window_size. rewrite length_map, length_seq. lia.
Defined.

(** X17.  With exactly one closing price more than the window, all
    positive, the frame has a single row, the samples span zero days and
    the script ends on [ZeroDivisionError] at [1 / years]. *)
Theorem single_row_history_ends_on_ZeroDivisionError (data : list (Timestamp * R)) :
  length data = (window_size + 1)%nat ->
  Forall (fun dp => 0 < snd dp) data ->
  main data = Raised ZeroDivisionError.
Proof.
  intros Hlen Hpos. unfold main, run_simulation.
  assert (Hdates : map Date (data_df data) = skipn window_size (map fst data))
    by (apply data_df_long; [lia | exact Hpos]).
  assert (Hl : length (map Date (data_df data)) = 1%nat)
    by (rewrite Hdates, length_skipn, length_map; lia).
  rewrite length_map in Hl.
  destruct (data_df data) as [| row [| row' rest]]; try discriminate.
  rewrite simulate_fold. cbn [bind fold_left].
  set (monthly := monthly_dates [row]).
  destruct (day_result_samples monthly initial row) as [Hpv Hds].
  cbn [initial portfolio_value dates app] in Hpv, Hds.
  apply metrics_zero_period with (d := Date row).
  - discriminate.
  - rewrite Hpv. discriminate.
  - rewrite Hds. reflexivity.
  - rewrite Hds. reflexivity.
Qed.

Lemma single_row_history_ends_on_ZeroDivisionError_witness :
  main (flat_history (days_from_civil 2021 1 4) 100 31) = Raised ZeroDivisionError.
Proof.
  apply single_row_history_ends_on_ZeroDivisionError.
  - unfold flat_history, window_size. rewrite length_map, length_seq. lia.
  - unfold flat_history. apply Forall_map, Forall_forall.
    intros i _. cbn [snd]. lra.
Defined.

(** X18.  With at least two closing prices more than the window, all
    positive, on strictly increasing dates, the script runs to its end and
    returns the four metrics. *)
Theorem long_history_runs_to_the_metrics (data : list (Timestamp * R)) :
  (window_size + 2 <= length data)%nat ->
  Forall (fun dp => 0 < snd dp) data ->
  StronglySorted Z.lt (map fst data) ->
  exists m, main data = Returned m.
Proof. apply main_returns_on_a_long_history. Qed.

Lemma flat_history_32_is_valid :
  (window_size + 2 <= length (flat_history (days_from_civil 2021 1 4) 100 32))%nat /\
  Forall (fun dp => 0 < snd dp) (flat_history (days_from_civil 2021 1 4) 100 32) /\
  StronglySorted Z.lt (map fst (flat_history (days_from_civil 2021 1 4) 100 32)).
Proof.
  split; [| split].
  - unfold flat_history, window_size. rewrite length_map, length_seq. lia.
  - unfold flat_history. apply Forall_map, Forall_forall.
    intros i _. cbn [snd]. lra.
  - unfold flat_history. rewrite map_map. cbn [fst].
    vm_compute. repeat constructor.
Defined.

Lemma long_history_runs_to_the_metrics_witness :
  exists m, main (flat_history (days_from_civil 2021 1 4) 100 32) = Returned m.
Proof.
  destruct flat_history_32_is_valid as (H1 & H2 & H3).
  apply long_history_runs_to_the_metrics; assumption.
Defined.



(** X20.  The buy-and-hold return the script reports is the relative
    change of the price between the first and the last row of the frame,
    whatever [shares_per_contract] is. *)
Theorem buy_and_hold_return_is_the_price_change
    (row0 : Row) (rest : list Row) (b : Book) (m : Metrics) :
  0 < Price row0 ->
  performance_metrics (row0 :: rest) b = Returned m ->
  buy_and_hold_return m =
  Some ((Price (last rest row0) - Price row0) / Price row0).
Proof.
  intros Hp0. unfold performance_metrics. cbn [map first_item bind].
  destruct (total_return (portfolio_value b)) as [ccr |]; cbn [bind];
    [| discriminate].
  unfold total_return at 1. rewrite last_item_last. cbn [bind first_item].
  unfold np_divide.
  destruct (Req_dec_T (IZR shares_per_contract * Price row0) 0) as [E | _].
  { exfalso. unfold shares_per_contract in E. lra. }
  destruct (last_item _) as [d1 |]; cbn [bind]; [| discriminate].
  destruct (first_item _) as [d0 |]; cbn [bind]; [| discriminate].
  destruct (annualized_return ccr _) as [acc |]; cbn [bind]; [| discriminate].
  destruct (annualized_return _ _) as [abh |]; cbn [bind]; [| discriminate].
  intros E. injection E as <-. cbn [buy_and_hold_return]. f_equal.
  rewrite (last_map_default (fun row => IZR shares_per_contract * Price row)).
  unfold shares_per_contract. field. lra.
Qed.

Lemma buy_and_hold_return_is_the_price_change_witness :
  exists m,
    performance_metrics
      [mkRow 18659%Z 100 0 0.2; mkRow 18687%Z 110 0 0.2]
      (mkBook 0 100 [0; 1000] [18659%Z; 18687%Z] []) = Returned m /\
    buy_and_hold_return m = Some ((110 - 100) / 100).
Proof.
  destruct (@metrics_return
              [mkRow 18659%Z 100 0 0.2; mkRow 18687%Z 110 0 0.2]
              (mkBook 0 100 [0; 1000] [18659%Z; 18687%Z] [])
              18659%Z 18687%Z) as [m Hm].
  - intros E. inversion E.
  - cbn [portfolio_value]. intros E. inversion E.
  - reflexivity.
  - reflexivity.
  - intros E. inversion E.
  - exists m. split; [exact Hm |].
    apply (@buy_and_hold_return_is_the_price_change
             (mkRow 18659%Z 100 0 0.2) [mkRow 18687%Z 110 0 0.2]
             (mkBook 0 100 [0; 1000] [18659%Z; 18687%Z] []) m);
      [cbn [Price]; lra | exact Hm].
Defined.
